(** * Stock and sales bookkeeping of the inventory application

    A shallow embedding of the three state containers of the application
    (context/AuthContext.tsx, context/ProductsContext.tsx and
    context/SalesContext.tsx) together with the data model of
    models/Product.ts, models/Sales.ts and models/User.ts.

    Conventions of the embedding.

    - A JavaScript [number] is embedded twice.  In most of the file it
      is an exact rational ([Q]), which is enough for what depends on
      the shape of the data and on the outcome of the comparisons that
      the code makes.  What depends on the arithmetic itself, on
      rounding or on [NaN], is stated on the module [Double], where a
      [number] is a binary64 value of IEEE 754.
    - A [Date] is a time stamp in [Z]; [Date.now()], [new Date()] and
      [Math.random()] are draws from an environment [Env] that the
      operations take as an argument.
    - An optional field ([reason?: string]) is an [option].
    - The containers are React function components.  A callback such as
      [removeStock] is created by one render and closes over the values
      that the state cells had in that render ([const [products,
      setProducts] = useState(..)]); a setter ([setProducts]) replaces
      the content of the cell for later renders and leaves the captured
      array alone, and no array is ever mutated in place ([[...products]]
      copies).  A callback is therefore a function of the render
      [r : World] that created it, and it acts on the state cells through
      the state monad [M].  [call] runs the callback of the current
      render.  [createSale] takes [products] and [removeStock] from one
      [useProducts()] (SalesContext.tsx, line 71), so the [removeStock]
      that its loop awaits is, at every iteration, the one of the render
      of [createSale] itself.
    - [AsyncStorage] is a black box.  [saveData] catches its own errors,
      has no effect on the cells and is always given the arrays that the
      setters were given, so it does not appear; for [login] the success
      of the write is an input.  The [isLoading] cells only drive the
      screens and are left out. *)

From Stdlib Require Import QArith Qabs Lqa ZArith String List Bool Lia SpecFloat.
From stdpp Require Import base list.
Import ListNotations.
Open Scope string_scope.
Open Scope Q_scope.
Open Scope list_scope.

(** ** Numbers *)

(** [a < b] on numbers, as a boolean. *)
Definition Qlt_bool (a b : Q) : bool := negb (Qle_bool b a).

(** [Math.abs]. *)
Definition Math_abs (x : Q) : Q := Qabs x.

(** ** Data model (models/Product.ts, models/Sales.ts, models/User.ts) *)

Definition Date := Z.

Module Product.
Record t := mk {
  id : string;
  name : string;
  description : option string;
  sku : option string;
  price : Q;
  costPrice : Q;
  stockLevel : Q;
  lowStockThreshold : Q;
  reorderPoint : Q;
  category : string;
  imageUrl : option string;
  createdAt : Date;
  updatedAt : Date
}.

(** [{ ...p, stockLevel: v, updatedAt: d }] *)
Definition with_stock (p : t) (v : Q) (d : Date) : t :=
  mk (id p) (name p) (description p) (sku p) (price p) (costPrice p)
     v (lowStockThreshold p) (reorderPoint p) (category p) (imageUrl p)
     (createdAt p) d.
End Product.

Inductive ActivityType := ADD | REMOVE | ADJUST.

Module StockActivity.
Record t := mk {
  id : string;
  productId : string;
  type : ActivityType;
  quantity : Q;
  reason : option string;
  date : Date;
  performedBy : string
}.
End StockActivity.

Inductive PaymentStatus := PAID | CREDIT | PARTIAL.

(** [Partial<Product>] as the sale stores it: the four fields of the
    snapshot taken in [createSale]. *)
Module ProductSnapshot.
Record t := mk {
  id : option string;
  name : option string;
  sku : option string;
  price : option Q
}.
End ProductSnapshot.

(** [Omit<SaleItem, "id" | "subtotal">], the argument of [createSale]. *)
Module SaleItemData.
Record t := mk {
  productId : string;
  productSnapshot : ProductSnapshot.t;
  quantity : Q;
  pricePerUnit : Q;
  discount : option Q
}.
End SaleItemData.

Module SaleItem.
Record t := mk {
  id : string;
  productId : string;
  productSnapshot : ProductSnapshot.t;
  quantity : Q;
  pricePerUnit : Q;
  discount : option Q;
  subtotal : Q
}.
End SaleItem.

Module Customer.
Record t := mk {
  name : string;
  phone : option string;
  email : option string
}.
End Customer.

Module Sale.
Record t := mk {
  id : string;
  items : list SaleItem.t;
  totalAmount : Q;
  amountPaid : Q;
  balance : Q;
  paymentStatus : PaymentStatus;
  customer : option Customer.t;
  notes : option string;
  soldBy : string;
  createdAt : Date;
  updatedAt : Date
}.
End Sale.

Module CreditPayment.
Record t := mk {
  id : string;
  saleId : string;
  amount : Q;
  paymentMethod : string;
  receivedBy : string;
  notes : option string;
  paymentDate : Date
}.
End CreditPayment.

Inductive UserRole := ADMIN | SALESMAN.

Module UserPermissions.
Record t := mk {
  canManageProducts : bool;
  canViewReports : bool;
  canManageUsers : bool;
  canMakeSales : bool;
  canViewInventory : bool;
  canAdjustInventory : bool;
  canViewSales : bool
}.
End UserPermissions.

Definition DEFAULT_PERMISSIONS (role : UserRole) : UserPermissions.t :=
  match role with
  | ADMIN => UserPermissions.mk true true true true true true true
  | SALESMAN => UserPermissions.mk false false false true true false true
  end.

Module User.
Record t := mk {
  id : string;
  username : string;
  password : string;
  displayName : string;
  role : UserRole;
  permissions : UserPermissions.t;
  createdAt : Date;
  updatedAt : Date
}.
End User.

(** ** Environment and state cells *)

(** Draws of the clock and of fresh identifiers
    ([Date.now().toString() + Math.random().toString(36).substring(..)]),
    numbered within one operation. *)
Record Env := mkEnv {
  date_now : nat -> Date;
  fresh_id : nat -> string
}.

Definition env_shift (k : nat) (e : Env) : Env :=
  {| date_now := fun i => date_now e (k + i)%nat;
     fresh_id := fun i => fresh_id e (k + i)%nat |}.

(** The [useState] cells of [ProductsProvider] and [SalesProvider]. *)
Record World := mkWorld {
  products : list Product.t;
  stockActivities : list StockActivity.t;
  sales : list Sale.t;
  creditPayments : list CreditPayment.t
}.

(** State monad over the cells. *)
Definition M (A : Type) : Type := World -> A * World.

Definition ret {A} (a : A) : M A := fun w => (a, w).

Definition bind {A B} (m : M A) (f : A -> M B) : M B :=
  fun w => let (a, w') := m w in f a w'.

Notation "'let*' x ':=' c1 'in' c2" := (bind c1 (fun x => c2))
  (at level 10, x name, c1 at level 100, c2 at level 200).
Notation "c1 ;; c2" := (bind c1 (fun _ => c2))
  (at level 100, c2 at level 200, right associativity).

Definition setProducts (v : list Product.t) : M unit :=
  fun w => (tt, mkWorld v (stockActivities w) (sales w) (creditPayments w)).

Definition setStockActivities (v : list StockActivity.t) : M unit :=
  fun w => (tt, mkWorld (products w) v (sales w) (creditPayments w)).

Definition setSales (v : list Sale.t) : M unit :=
  fun w => (tt, mkWorld (products w) (stockActivities w) v (creditPayments w)).

Definition setCreditPayments (v : list CreditPayment.t) : M unit :=
  fun w => (tt, mkWorld (products w) (stockActivities w) (sales w) v).

(** The callback of the current render, run on the current cells. *)
Definition call {A} (op : World -> M A) (w : World) : A * World := op w w.

(** [Array.prototype.findIndex]; [None] stands for [-1]. *)
Fixpoint findIndex {A} (f : A -> bool) (l : list A) : option nat :=
  match l with
  | [] => None
  | x :: l' => if f x then Some 0%nat else option_map S (findIndex f l')
  end.

(** ** ProductsContext.tsx *)

Definition DEMO_PRODUCTS (now : Date) : list Product.t :=
  [ Product.mk "1" "T-Shirt" (Some "Cotton t-shirt, size M") (Some "TS-001")
      1500 1000 25 10 5 "Clothing" None now now;
    Product.mk "2" "Jeans" (Some "Blue denim jeans, size 32") (Some "JN-001")
      3500 2200 15 8 5 "Clothing" None now now;
    Product.mk "3" "Sneakers" (Some "Canvas sneakers, size 42") (Some "SN-001")
      4500 3000 8 10 5 "Footwear" None now now ].

Definition createStockActivity (type : ActivityType) (productId : string)
    (quantity : Q) (userId : string) (reason : option string) (e : Env)
  : StockActivity.t :=
  {| StockActivity.id := fresh_id e 0;
     StockActivity.productId := productId;
     StockActivity.type := type;
     StockActivity.quantity := quantity;
     StockActivity.reason := reason;
     StockActivity.date := date_now e 1;
     StockActivity.performedBy := userId |}.

Definition addStock (r : World) (productId : string) (quantity : Q)
    (userId : string) (reason : option string) (e : Env) : M bool :=
  match findIndex (fun p => Product.id p =? productId)%string (products r) with
  | None => ret false
  | Some index =>
    match products r !! index with
    | None => ret false
    | Some p =>
      let updatedProduct :=
        Product.with_stock p (Product.stockLevel p + quantity) (date_now e 0) in
      let updatedProducts := <[index := updatedProduct]> (products r) in
      setProducts updatedProducts ;;
      let activity := createStockActivity ADD productId quantity userId reason e in
      let updatedActivities := stockActivities r ++ [activity] in
      setStockActivities updatedActivities ;;
      ret true
    end
  end.

Definition removeStock (r : World) (productId : string) (quantity : Q)
    (userId : string) (reason : option string) (e : Env) : M bool :=
  match findIndex (fun p => Product.id p =? productId)%string (products r) with
  | None => ret false
  | Some index =>
    match products r !! index with
    | None => ret false
    | Some p =>
      (* Don't allow negative stock *)
      if Qlt_bool (Product.stockLevel p) quantity then ret false
      else
        let updatedProduct :=
          Product.with_stock p (Product.stockLevel p - quantity) (date_now e 0) in
        let updatedProducts := <[index := updatedProduct]> (products r) in
        setProducts updatedProducts ;;
        let activity :=
          createStockActivity REMOVE productId quantity userId reason e in
        let updatedActivities := stockActivities r ++ [activity] in
        setStockActivities updatedActivities ;;
        ret true
    end
  end.

Definition adjustStock (r : World) (productId : string) (newQuantity : Q)
    (userId : string) (reason : option string) (e : Env) : M bool :=
  match findIndex (fun p => Product.id p =? productId)%string (products r) with
  | None => ret false
  | Some index =>
    match products r !! index with
    | None => ret false
    | Some p =>
      let difference := newQuantity - Product.stockLevel p in
      let updatedProduct := Product.with_stock p newQuantity (date_now e 0) in
      let updatedProducts := <[index := updatedProduct]> (products r) in
      setProducts updatedProducts ;;
      let activity :=
        createStockActivity ADJUST productId (Math_abs difference) userId reason e in
      let updatedActivities := stockActivities r ++ [activity] in
      setStockActivities updatedActivities ;;
      ret true
    end
  end.

(** ** SalesContext.tsx *)

(** [d || 0] for an optional number: the right operand when [d] is
    absent or zero. *)
Definition or_zero (d : option Q) : Q :=
  match d with
  | Some d => if Qeq_bool d 0 then 0 else d
  | None => 0
  end.

(** The callback of [itemsData.map] in [createSale], for the item at
    position [k]; [None] is the thrown "not found" error. *)
Definition mkSaleItem (r : World) (e : Env) (k : nat) (item : SaleItemData.t)
  : option SaleItem.t :=
  match List.find (fun p => Product.id p =? SaleItemData.productId item)%string
                  (products r) with
  | None => None
  | Some product =>
    let subtotal :=
      SaleItemData.quantity item * SaleItemData.pricePerUnit item
      - or_zero (SaleItemData.discount item) in
    Some {| SaleItem.id := fresh_id e k;
            SaleItem.productId := SaleItemData.productId item;
            SaleItem.productSnapshot :=
              {| ProductSnapshot.id := Some (Product.id product);
                 ProductSnapshot.name := Some (Product.name product);
                 ProductSnapshot.sku := Product.sku product;
                 ProductSnapshot.price := Some (Product.price product) |};
            SaleItem.quantity := SaleItemData.quantity item;
            SaleItem.pricePerUnit := SaleItemData.pricePerUnit item;
            SaleItem.discount := SaleItemData.discount item;
            SaleItem.subtotal := subtotal |}
  end.

Fixpoint mapSaleItems (r : World) (e : Env) (k : nat)
    (itemsData : list SaleItemData.t) : option (list SaleItem.t) :=
  match itemsData with
  | [] => Some []
  | item :: rest =>
    match mkSaleItem r e k item with
    | None => None
    | Some saleItem =>
      match mapSaleItems r e (S k) rest with
      | None => None
      | Some saleItems => Some (saleItem :: saleItems)
      end
    end
  end.

(** The [for (const item of saleItems)] loop of [createSale].  Every
    iteration calls the [removeStock] of the render [r]; [false] is the
    thrown "Failed to update inventory" error. *)
Fixpoint updateInventory (r : World) (soldBy : string) (reason : string)
    (e : Env) (k : nat) (saleItems : list SaleItem.t) : M bool :=
  match saleItems with
  | [] => ret true
  | item :: rest =>
    let* success :=
      removeStock r (SaleItem.productId item) (SaleItem.quantity item)
        soldBy (Some reason) (env_shift k e) in
    if success : bool then updateInventory r soldBy reason e (S k) rest
    else ret false
  end.

(** Lines 159 to 180 of [createSale]: the total, the payment status and
    the record of the new sale, from the items that [map] produced. *)
Definition buildSale (saleItems : list SaleItem.t) (amountPaid : Q)
    (soldBy : string) (customer : option Customer.t) (notes : option string)
    (newId : string) (createdAt updatedAt : Date) : Sale.t :=
  let totalAmount :=
    fold_left (fun acc item => acc + SaleItem.subtotal item) saleItems 0 in
  let paymentStatus :=
    if Qlt_bool amountPaid totalAmount
    then (if Qeq_bool amountPaid 0 then CREDIT else PARTIAL)
    else PAID in
  {| Sale.id := newId;
     Sale.items := saleItems;
     Sale.totalAmount := totalAmount;
     Sale.amountPaid := amountPaid;
     Sale.balance := totalAmount - amountPaid;
     Sale.paymentStatus := paymentStatus;
     Sale.customer := customer;
     Sale.notes := notes;
     Sale.soldBy := soldBy;
     Sale.createdAt := createdAt;
     Sale.updatedAt := updatedAt |}.

(** [createSale] of the render [r].  [None] is the [null] that the
    [catch] branch returns. *)
Definition createSale (r : World) (itemsData : list SaleItemData.t)
    (amountPaid : Q) (soldBy : string) (customer : option Customer.t)
    (notes : option string) (e : Env) : M (option Sale.t) :=
  match mapSaleItems r e 0 itemsData with
  | None => ret None
  | Some saleItems =>
    let n := length itemsData in
    let newSale :=
      buildSale saleItems amountPaid soldBy customer notes
        (fresh_id e n) (date_now e 0) (date_now e 1) in
    let* success :=
      updateInventory r soldBy (String.append "Sale: " (Sale.id newSale))
        e (S n) saleItems in
    if success : bool then
      let updatedSales := sales r ++ [newSale] in
      setSales updatedSales ;;
      ret (Some newSale)
    else ret None
  end.

Definition getSale (r : World) (id : string) : option Sale.t :=
  List.find (fun sale => Sale.id sale =? id)%string (sales r).

(** The [payment] record of [addCreditPayment]. *)
Definition newPayment (saleId : string) (amount : Q) (receivedBy : string)
    (paymentMethod : string) (notes : option string) (e : Env)
  : CreditPayment.t :=
  {| CreditPayment.id := fresh_id e 0;
     CreditPayment.saleId := saleId;
     CreditPayment.amount := amount;
     CreditPayment.paymentMethod := paymentMethod;
     CreditPayment.receivedBy := receivedBy;
     CreditPayment.notes := notes;
     CreditPayment.paymentDate := date_now e 0 |}.

(** The [updatedSale] record of [addCreditPayment]:
    [{ ...sale, amountPaid, balance, paymentStatus, updatedAt }]. *)
Definition applyPayment (sale : Sale.t) (amount : Q) (updatedAt : Date)
  : Sale.t :=
  {| Sale.id := Sale.id sale;
     Sale.items := Sale.items sale;
     Sale.totalAmount := Sale.totalAmount sale;
     Sale.amountPaid := Sale.amountPaid sale + amount;
     Sale.balance := Sale.balance sale - amount;
     Sale.paymentStatus :=
       (* Use tolerance for float comparison *)
       if Qle_bool (Sale.balance sale - amount) 0.001 then PAID else PARTIAL;
     Sale.customer := Sale.customer sale;
     Sale.notes := Sale.notes sale;
     Sale.soldBy := Sale.soldBy sale;
     Sale.createdAt := Sale.createdAt sale;
     Sale.updatedAt := updatedAt |}.

(** [addCreditPayment] of the render [r].  [None] is the [null] that the
    [catch] branch returns. *)
Definition addCreditPayment (r : World) (saleId : string) (amount : Q)
    (receivedBy : string) (paymentMethod : string) (notes : option string)
    (e : Env) : M (option CreditPayment.t) :=
  match findIndex (fun s => Sale.id s =? saleId)%string (sales r) with
  | None => ret None
  | Some saleIndex =>
    match sales r !! saleIndex with
    | None => ret None
    | Some sale =>
      if Qle_bool amount 0 || Qlt_bool (Sale.balance sale) amount then ret None
      else
        let payment :=
          newPayment saleId amount receivedBy paymentMethod notes e in
        let updatedSale := applyPayment sale amount (date_now e 1) in
        let updatedSales := <[saleIndex := updatedSale]> (sales r) in
        let updatedPayments := creditPayments r ++ [payment] in
        setSales updatedSales ;;
        setCreditPayments updatedPayments ;;
        ret (Some payment)
    end
  end.

(** ** AuthContext.tsx *)

(** [boot] is the time at which the module is loaded. *)
Definition DEMO_USERS (boot : Date) : list User.t :=
  [ User.mk "1" "admin" "admin123" "Admin User" ADMIN
      (DEFAULT_PERMISSIONS ADMIN) boot boot;
    User.mk "2" "sales" "sales123" "Sales Staff" SALESMAN
      (DEFAULT_PERMISSIONS SALESMAN) boot boot ].

(** [login] on the [user] cell of [AuthProvider].  [storageOk] tells
    whether [AsyncStorage.setItem] resolves; when it rejects the [catch]
    branch returns [false] before [setUser] is reached. *)
Definition login (boot : Date) (username password : string) (storageOk : bool)
    (user : option User.t) : bool * option User.t :=
  match List.find (fun u => (User.username u =? username)%string
                            && (User.password u =? password)%string)
                  (DEMO_USERS boot) with
  | Some foundUser =>
    if storageOk then (true, Some foundUser) else (false, user)
  | None => (false, user)
  end.

Definition isAuthenticated (user : option User.t) : bool :=
  match user with Some _ => true | None => false end.

(** What a successful stock operation writes into the cells: the product
    at [index] replaced and one activity appended to the log of the
    render. *)
Definition stock_written (r w : World) (index : nat) (p' : Product.t)
    (a : StockActivity.t) : World :=
  mkWorld (<[index := p']> (products r)) (stockActivities r ++ [a])
          (sales w) (creditPayments w).

(** Whether the [removeStock] of the render [r] goes through: the
    product is in the list of the render and its stock level there is
    not below the quantity. *)
Definition canRemove (r : World) (productId : string) (quantity : Q) : bool :=
  match List.find (fun p => Product.id p =? productId)%string (products r) with
  | Some p => negb (Qlt_bool (Product.stockLevel p) quantity)
  | None => false
  end.

(** How [createSale] builds an item from its input. *)
Definition item_built_from (d : SaleItemData.t) (item : SaleItem.t) : Prop :=
  SaleItem.productId item = SaleItemData.productId d /\
  SaleItem.quantity item = SaleItemData.quantity d /\
  SaleItem.pricePerUnit item = SaleItemData.pricePerUnit d /\
  SaleItem.discount item = SaleItemData.discount d /\
  SaleItem.subtotal item =
    SaleItemData.quantity d * SaleItemData.pricePerUnit d
    - or_zero (SaleItemData.discount d).

(** An item that makes [createSale] fail in the render [r]: its product
    is not in the list, or the stock level is below the quantity. *)
Definition cannot_sell (r : World) (d : SaleItemData.t) : Prop :=
  match List.find (fun p => Product.id p =? SaleItemData.productId d)%string
                  (products r) with
  | None => True
  | Some p => Product.stockLevel p < SaleItemData.quantity d
  end.

(** ** Properties of the state *)

(** Invariant of the product list: no stock level is negative. *)
Definition stock_nonneg (w : World) : Prop :=
  Forall (fun p => 0 <= Product.stockLevel p) (products w).



(** ** Sample inputs *)

Definition sample_env : Env :=
  {| date_now := fun n => Z.of_nat n;
     fresh_id := fun n => String (Ascii.ascii_of_nat (97 + n)) "" |}.

(** The cells after the first load on an empty storage. *)
Definition demo_world : World := mkWorld (DEMO_PRODUCTS 0%Z) [] [] [].

Definition sample_item (productId : string) (quantity pricePerUnit : Q)
  : SaleItemData.t :=
  {| SaleItemData.productId := productId;
     SaleItemData.productSnapshot := ProductSnapshot.mk None None None None;
     SaleItemData.quantity := quantity;
     SaleItemData.pricePerUnit := pricePerUnit;
     SaleItemData.discount := None |}.

(** A sale of two T-shirts and three pairs of jeans, nothing paid. *)
Definition sale_two_items : option Sale.t * World :=
  call (fun r => createSale r [sample_item "1" 2 1500; sample_item "2" 3 3500]
                   0 "2" None None sample_env) demo_world.

(** A sale of two T-shirts and thirty pairs of jeans (fifteen in stock). *)
Definition sale_out_of_stock : option Sale.t * World :=
  call (fun r => createSale r [sample_item "1" 2 1500; sample_item "2" 30 3500]
                   0 "2" None None sample_env) demo_world.

(** A sale of one T-shirt with [paid] handed over. *)
Definition sale_one_shirt (paid : Q) : option Sale.t * World :=
  call (fun r => createSale r [sample_item "1" 1 1500] paid "2" None None
                   sample_env) demo_world.

(** The sale of [sale_two_items], then a payment of 500 on it. *)
Definition sale_then_payment : option CreditPayment.t * World :=
  call (fun r => addCreditPayment r "c" 500 "2" "cash" None sample_env)
       (snd sale_two_items).

(** * The rest of the containers and the screens that call them *)

(** ** ProductsContext.tsx: the catalogue *)

(** [Omit<Product, "id" | "createdAt" | "updatedAt">], the argument of
    [addProduct]. *)
Module ProductData.
Record t := mk {
  name : string;
  description : option string;
  sku : option string;
  price : Q;
  costPrice : Q;
  stockLevel : Q;
  lowStockThreshold : Q;
  reorderPoint : Q;
  category : string;
  imageUrl : option string
}.
End ProductData.

(** [Partial<Product>], the argument of [updateProduct]: [None] is a key
    that the object does not have. *)
Module ProductUpdates.
Record t := mk {
  id : option string;
  name : option string;
  description : option (option string);
  sku : option (option string);
  price : option Q;
  costPrice : option Q;
  stockLevel : option Q;
  lowStockThreshold : option Q;
  reorderPoint : option Q;
  category : option string;
  imageUrl : option (option string);
  createdAt : option Date;
  updatedAt : option Date
}.

(** [{ ...p, ...updates, updatedAt: d }] *)
Definition apply (p : Product.t) (u : t) (d : Date) : Product.t :=
  Product.mk (default (Product.id p) (id u))
    (default (Product.name p) (name u))
    (default (Product.description p) (description u))
    (default (Product.sku p) (sku u))
    (default (Product.price p) (price u))
    (default (Product.costPrice p) (costPrice u))
    (default (Product.stockLevel p) (stockLevel u))
    (default (Product.lowStockThreshold p) (lowStockThreshold u))
    (default (Product.reorderPoint p) (reorderPoint u))
    (default (Product.category p) (category u))
    (default (Product.imageUrl p) (imageUrl u))
    (default (Product.createdAt p) (createdAt u))
    d.
End ProductUpdates.

(** The id of [addProduct] is [Date.now().toString()], a draw of the
    environment. *)
Definition addProduct (r : World) (productData : ProductData.t) (e : Env)
  : M Product.t :=
  let newProduct :=
    Product.mk (fresh_id e 0)
      (ProductData.name productData) (ProductData.description productData)
      (ProductData.sku productData) (ProductData.price productData)
      (ProductData.costPrice productData) (ProductData.stockLevel productData)
      (ProductData.lowStockThreshold productData)
      (ProductData.reorderPoint productData) (ProductData.category productData)
      (ProductData.imageUrl productData) (date_now e 0) (date_now e 1) in
  let updatedProducts := products r ++ [newProduct] in
  setProducts updatedProducts ;;
  ret newProduct.

Definition updateProduct (r : World) (id : string) (updates : ProductUpdates.t)
    (e : Env) : M (option Product.t) :=
  match findIndex (fun p => Product.id p =? id)%string (products r) with
  | None => ret None
  | Some index =>
    match products r !! index with
    | None => ret None
    | Some p =>
      let updatedProduct := ProductUpdates.apply p updates (date_now e 0) in
      let updatedProducts := <[index := updatedProduct]> (products r) in
      setProducts updatedProducts ;;
      ret (Some updatedProduct)
    end
  end.

Definition deleteProduct (r : World) (id : string) : M bool :=
  let updatedProducts :=
    List.filter (fun p => negb (Product.id p =? id)%string) (products r) in
  setProducts updatedProducts ;;
  ret true.


(** ** SalesContext.tsx: the read operations *)

Definition getCreditSales (r : World) : list Sale.t :=
  List.filter
    (fun sale =>
       match Sale.paymentStatus sale with
       | CREDIT | PARTIAL => true
       | PAID => false
       end)
    (sales r).

(** ** AuthContext.tsx: logout, and the two gates on the reports *)

(** Both branches of [logout] end in [setUser(null)], whether
    [AsyncStorage.removeItem] resolves or not. *)
Definition logout (storageOk : bool) (user : option User.t) : option User.t :=
  if storageOk then None else None.

(** (tabs)/_layout.tsx, line 78: [user?.permissions.canViewReports]. *)
Definition reportsTabShown (user : option User.t) : bool :=
  match user with
  | Some u => UserPermissions.canViewReports (User.permissions u)
  | None => false
  end.

(** (tabs)/reports.tsx, line 47: [user?.role !== "ADMIN"]. *)
Definition reportsDenied (user : option User.t) : bool :=
  match user with
  | Some u => match User.role u with ADMIN => false | SALESMAN => true end
  | None => true
  end.

(** A string in a condition: the empty string is falsy. *)
Definition truthy (s : string) : bool :=
  match s with EmptyString => false | String _ _ => true end.


(** ** app/sales/new.tsx: the cart and the finalisation of a sale *)

(** [interface CartItem extends SaleItem]. *)
Module CartItem.
Record t := mk {
  id : string;
  productId : string;
  productSnapshot : ProductSnapshot.t;
  quantity : Q;
  pricePerUnit : Q;
  discount : option Q;
  subtotal : Q;
  productName : string;
  availableStock : Q
}.

(** [{ ...item, quantity: q, subtotal: s }] *)
Definition with_quantity (item : t) (q s : Q) : t :=
  mk (id item) (productId item) (productSnapshot item) q (pricePerUnit item)
     (discount item) s (productName item) (availableStock item).
End CartItem.

(** [Array.prototype.filter(item => item !== null)] after a [map] that
    returns [null] for the items to drop. *)
Fixpoint dropNull {A} (l : list (option A)) : list A :=
  match l with
  | [] => []
  | Some x :: rest => x :: dropNull rest
  | None :: rest => dropNull rest
  end.

(** The updater that [updateCartItemQuantity] hands to [setCart]; it
    runs on the current cart. *)
Definition updateCartItemQuantity (productId : string) (newQuantity : Q)
    (currentCart : list CartItem.t) : list CartItem.t :=
  dropNull
    (map (fun item =>
            if (CartItem.productId item =? productId)%string then
              if Qlt_bool 0 newQuantity
                 && Qle_bool newQuantity (CartItem.availableStock item)
              then Some (CartItem.with_quantity item newQuantity
                           (newQuantity * CartItem.pricePerUnit item
                            - or_zero (CartItem.discount item)))
              else if Qeq_bool newQuantity 0 then None
              else Some item
            else Some item)
         currentCart).

Definition newCartItem (product : Product.t) : CartItem.t :=
  {| CartItem.id := Product.id product;
     CartItem.productId := Product.id product;
     CartItem.productName := Product.name product;
     CartItem.quantity := 1;
     CartItem.pricePerUnit := Product.price product;
     CartItem.subtotal := Product.price product;
     CartItem.availableStock := Product.stockLevel product;
     CartItem.productSnapshot :=
       {| ProductSnapshot.id := Some (Product.id product);
          ProductSnapshot.name := Some (Product.name product);
          ProductSnapshot.sku := Product.sku product;
          ProductSnapshot.price := Some (Product.price product) |};
     CartItem.discount := None |}.

(** [handleAddProductToCart] of the render whose cart is [cart], acting
    on the cart cell [currentCart]: it looks the product up in the cart
    of its render and writes [[...cart, newItem]], or goes through the
    updater of [updateCartItemQuantity]. *)
Definition handleAddProductToCart (cart : list CartItem.t) (product : Product.t)
    (currentCart : list CartItem.t) : list CartItem.t :=
  match List.find (fun item => CartItem.productId item =? Product.id product)%string
                  cart with
  | Some existingCartItem =>
    if Qlt_bool (CartItem.quantity existingCartItem) (Product.stockLevel product)
    then updateCartItemQuantity (Product.id product)
           (CartItem.quantity existingCartItem + 1) currentCart
    else currentCart
  | None => cart ++ [newCartItem product]
  end.

Definition handleRemoveItem (productId : string) (currentCart : list CartItem.t)
  : list CartItem.t :=
  List.filter (fun item => negb (CartItem.productId item =? productId)%string)
              currentCart.

(** The [totalAmount] of the screen. *)
Definition cartTotal (cart : list CartItem.t) : Q :=
  fold_left (fun sum item => sum + CartItem.subtotal item) cart 0.

(** The [saleItems] that [handleFinalizeSale] hands to [createSale]. *)
Definition cartSaleItems (cart : list CartItem.t) : list SaleItemData.t :=
  map (fun item =>
         {| SaleItemData.productId := CartItem.productId item;
            SaleItemData.productSnapshot := CartItem.productSnapshot item;
            SaleItemData.quantity := CartItem.quantity item;
            SaleItemData.pricePerUnit := CartItem.pricePerUnit item;
            SaleItemData.discount := CartItem.discount item |})
      cart.

(** How [handleFinalizeSale] ends: the four alerts of its checks, then
    "Sale recorded successfully!" or "Failed to record sale." *)
Inductive FinalizeOutcome :=
| NotAuthenticated
| CartEmpty
| PaidNegative
| PaidExceedsTotal
| SaleRecorded
| SaleFailed.

(** [amountPaid] is the result of [parseFloat] on the text field, [None]
    for [NaN]. *)
Definition handleFinalizeSale (r : World) (user : option User.t)
    (cart : list CartItem.t) (amountPaid : option Q)
    (customerName customerPhone notes : string) (e : Env)
  : M FinalizeOutcome :=
  match user with
  | None => ret NotAuthenticated
  | Some user =>
    if (length cart =? 0)%nat then ret CartEmpty
    else
      let paidAmount := or_zero amountPaid in
      if Qlt_bool paidAmount 0 then ret PaidNegative
      else if Qlt_bool (cartTotal cart) paidAmount then ret PaidExceedsTotal
      else
        let saleItems := cartSaleItems cart in
        let customer :=
          if truthy customerName
          then Some {| Customer.name := customerName;
                       Customer.phone := Some customerPhone;
                       Customer.email := None |}
          else None in
        let* success :=
          createSale r saleItems paidAmount (User.id user) customer
            (Some notes) e in
        match success with
        | Some _ => ret SaleRecorded
        | None => ret SaleFailed
        end
  end.

(** ** app/product/edit/[id].tsx: the stock adjustment of the edit screen *)

Module StockAdjustmentType.
Inductive t := ADD | REMOVE | SET.
End StockAdjustmentType.



(** ** app/sales/detail/[id].tsx: a payment on a credit sale *)

(** How [handleAddPayment] ends: a silent return, "Please enter a valid
    positive payment amount.", "Payment amount cannot exceed the
    outstanding balance", "Payment recorded successfully!" or "Failed to
    record payment." *)
Inductive PaymentOutcome :=
| PaymentIgnored
| InvalidAmount
| ExceedsBalance
| PaymentRecorded
| PaymentFailed.

(** [sale] is the copy of the sale that the screen holds,
    [paymentAmount] the result of [parseFloat], [None] for [NaN]. *)
Definition handleAddPayment (r : World) (sale : option Sale.t)
    (user : option User.t) (paymentAmount : option Q)
    (paymentMethod paymentNotes : string) (e : Env) : M PaymentOutcome :=
  match sale, user with
  | Some sale, Some user =>
    match paymentAmount with
    | None => ret InvalidAmount
    | Some amount =>
      if Qle_bool amount 0 then ret InvalidAmount
      else if Qlt_bool (Sale.balance sale) amount then ret ExceedsBalance
      else
        let* success :=
          addCreditPayment r (Sale.id sale) amount (User.id user)
            paymentMethod (Some paymentNotes) e in
        match success with
        | Some _ => ret PaymentRecorded
        | None => ret PaymentFailed
        end
    end
  | _, _ => ret PaymentIgnored
  end.

(** ** Properties of the cart *)

(** What the screen keeps true of a cart item: a positive quantity
    within the stock seen when the item was added, and the subtotal of
    that quantity. *)
Definition cart_item_ok (item : CartItem.t) : Prop :=
  0 < CartItem.quantity item /\
  CartItem.quantity item <= CartItem.availableStock item /\
  CartItem.subtotal item ==
    CartItem.quantity item * CartItem.pricePerUnit item
    - or_zero (CartItem.discount item).

Definition cart_ok (cart : list CartItem.t) : Prop :=
  Forall cart_item_ok cart /\ NoDup (map CartItem.productId cart).

(** A cart item whose product is in the list of [w] with at least the
    stock that the item recorded. *)
Definition cart_item_in_stock (w : World) (item : CartItem.t) : Prop :=
  exists p,
    List.find (fun p => Product.id p =? CartItem.productId item)%string
              (products w) = Some p /\
    CartItem.availableStock item <= Product.stockLevel p.


(** A product without what the stock operations write: the stock level
    and the time of the update. *)
Definition catalogue_entry (p : Product.t) : Product.t :=
  Product.with_stock p 0 0%Z.

(** * The same code on IEEE doubles

    The embedding above takes a [number] for an exact rational.  That is
    enough where only the shape of the data and the outcome of a
    comparison matter, and not where the code adds and subtracts or can
    be handed [NaN].  The module [Double] embeds the stock operations,
    [createSale] and [addCreditPayment] once more with a [number] as what
    it is, a binary64 value of IEEE 754: [spec_float] with the operations
    of precision 53 and maximal exponent 1024, rounding to nearest even,
    with [NaN], the infinities and the two zeros.  A [spec_float] is a
    double when it is [valid]. *)

Module Double.

Definition number : Type := spec_float.

Definition prec : Z := 53%Z.
Definition emax : Z := 1024%Z.

(** [x + y], [x - y], [x * y], [x / y] *)
Definition add : number -> number -> number := SFadd prec emax.
Definition sub : number -> number -> number := SFsub prec emax.
Definition mul : number -> number -> number := SFmul prec emax.
Definition div : number -> number -> number := SFdiv prec emax.

(** [x < y], [x <= y], [x === y]; all three are [false] when an operand
    is [NaN].  [x > y] is [ltb y x]. *)
Definition ltb : number -> number -> bool := SFltb.
Definition leb : number -> number -> bool := SFleb.
Definition eqb : number -> number -> bool := SFeqb.

Definition zero : number := S754_zero false.
Definition NaN : number := S754_nan.

(** The double of an integer literal, and of a decimal literal [n / d]
    with [n] and [d] below 2^53: the nearest double. *)
Definition of_Z (z : Z) : number := binary_normalize prec emax z 0%Z false.
Definition of_ratio (n d : Z) : number := div (of_Z n) (of_Z d).

(** The literal [0.001]. *)
Definition milli : number := of_ratio 1 1000.

Definition valid (x : number) : bool := valid_binary prec emax x.

Definition is_nan (x : number) : bool :=
  match x with S754_nan => true | _ => false end.

(** Neither [NaN] nor an infinity. *)
Definition is_finite (x : number) : bool :=
  match x with S754_zero _ | S754_finite _ _ _ => true | _ => false end.

(** [0 <= x] *)
Definition nonneg (x : number) : Prop := leb zero x = true.

(** [Math.abs]. *)
Definition Math_abs (x : number) : number := SFabs x.

(** [d || 0] for an optional number: the right operand when [d] is
    absent, a zero or [NaN]. *)
Definition or_zero (d : option number) : number :=
  match d with
  | Some d => if eqb d zero || is_nan d then zero else d
  | None => zero
  end.

Module Product.
Record t := mk {
  id : string;
  name : string;
  description : option string;
  sku : option string;
  price : number;
  costPrice : number;
  stockLevel : number;
  lowStockThreshold : number;
  reorderPoint : number;
  category : string;
  imageUrl : option string;
  createdAt : Date;
  updatedAt : Date
}.

(** [{ ...p, stockLevel: v, updatedAt: d }] *)
Definition with_stock (p : t) (v : number) (d : Date) : t :=
  mk (id p) (name p) (description p) (sku p) (price p) (costPrice p)
     v (lowStockThreshold p) (reorderPoint p) (category p) (imageUrl p)
     (createdAt p) d.
End Product.

Module StockActivity.
Record t := mk {
  id : string;
  productId : string;
  type : ActivityType;
  quantity : number;
  reason : option string;
  date : Date;
  performedBy : string
}.
End StockActivity.

Module ProductSnapshot.
Record t := mk {
  id : option string;
  name : option string;
  sku : option string;
  price : option number
}.
End ProductSnapshot.

Module SaleItemData.
Record t := mk {
  productId : string;
  productSnapshot : ProductSnapshot.t;
  quantity : number;
  pricePerUnit : number;
  discount : option number
}.
End SaleItemData.

Module SaleItem.
Record t := mk {
  id : string;
  productId : string;
  productSnapshot : ProductSnapshot.t;
  quantity : number;
  pricePerUnit : number;
  discount : option number;
  subtotal : number
}.
End SaleItem.

Module Sale.
Record t := mk {
  id : string;
  items : list SaleItem.t;
  totalAmount : number;
  amountPaid : number;
  balance : number;
  paymentStatus : PaymentStatus;
  customer : option Customer.t;
  notes : option string;
  soldBy : string;
  createdAt : Date;
  updatedAt : Date
}.
End Sale.

Module CreditPayment.
Record t := mk {
  id : string;
  saleId : string;
  amount : number;
  paymentMethod : string;
  receivedBy : string;
  notes : option string;
  paymentDate : Date
}.
End CreditPayment.

(** The state cells, their monad and the callback of the current
    render, as above. *)
Record World := mkWorld {
  products : list Product.t;
  stockActivities : list StockActivity.t;
  sales : list Sale.t;
  creditPayments : list CreditPayment.t
}.

Definition M (A : Type) : Type := World -> A * World.

Definition ret {A} (a : A) : M A := fun w => (a, w).

Definition bind {A B} (m : M A) (f : A -> M B) : M B :=
  fun w => let (a, w') := m w in f a w'.

#[local, warnings="-notation-overridden"]
Notation "'let*' x ':=' c1 'in' c2" := (bind c1 (fun x => c2))
  (at level 10, x name, c1 at level 100, c2 at level 200).
#[local, warnings="-notation-overridden"]
Notation "c1 ;; c2" := (bind c1 (fun _ => c2))
  (at level 100, c2 at level 200, right associativity).

Definition setProducts (v : list Product.t) : M unit :=
  fun w => (tt, mkWorld v (stockActivities w) (sales w) (creditPayments w)).

Definition setStockActivities (v : list StockActivity.t) : M unit :=
  fun w => (tt, mkWorld (products w) v (sales w) (creditPayments w)).

Definition setSales (v : list Sale.t) : M unit :=
  fun w => (tt, mkWorld (products w) (stockActivities w) v (creditPayments w)).

Definition setCreditPayments (v : list CreditPayment.t) : M unit :=
  fun w => (tt, mkWorld (products w) (stockActivities w) (sales w) v).

Definition call {A} (op : World -> M A) (w : World) : A * World := op w w.

(** ** ProductsContext.tsx *)

Definition DEMO_PRODUCTS (now : Date) : list Product.t :=
  [ Product.mk "1" "T-Shirt" (Some "Cotton t-shirt, size M") (Some "TS-001")
      (of_Z 1500) (of_Z 1000) (of_Z 25) (of_Z 10) (of_Z 5) "Clothing" None
      now now;
    Product.mk "2" "Jeans" (Some "Blue denim jeans, size 32") (Some "JN-001")
      (of_Z 3500) (of_Z 2200) (of_Z 15) (of_Z 8) (of_Z 5) "Clothing" None
      now now;
    Product.mk "3" "Sneakers" (Some "Canvas sneakers, size 42") (Some "SN-001")
      (of_Z 4500) (of_Z 3000) (of_Z 8) (of_Z 10) (of_Z 5) "Footwear" None
      now now ].

Definition createStockActivity (type : ActivityType) (productId : string)
    (quantity : number) (userId : string) (reason : option string) (e : Env)
  : StockActivity.t :=
  {| StockActivity.id := fresh_id e 0;
     StockActivity.productId := productId;
     StockActivity.type := type;
     StockActivity.quantity := quantity;
     StockActivity.reason := reason;
     StockActivity.date := date_now e 1;
     StockActivity.performedBy := userId |}.

Definition addStock (r : World) (productId : string) (quantity : number)
    (userId : string) (reason : option string) (e : Env) : M bool :=
  match findIndex (fun p => Product.id p =? productId)%string (products r) with
  | None => ret false
  | Some index =>
    match products r !! index with
    | None => ret false
    | Some p =>
      let updatedProduct :=
        Product.with_stock p (add (Product.stockLevel p) quantity)
          (date_now e 0) in
      let updatedProducts := <[index := updatedProduct]> (products r) in
      setProducts updatedProducts ;;
      let activity := createStockActivity ADD productId quantity userId reason e in
      let updatedActivities := stockActivities r ++ [activity] in
      setStockActivities updatedActivities ;;
      ret true
    end
  end.

Definition removeStock (r : World) (productId : string) (quantity : number)
    (userId : string) (reason : option string) (e : Env) : M bool :=
  match findIndex (fun p => Product.id p =? productId)%string (products r) with
  | None => ret false
  | Some index =>
    match products r !! index with
    | None => ret false
    | Some p =>
      (* Don't allow negative stock *)
      if ltb (Product.stockLevel p) quantity then ret false
      else
        let updatedProduct :=
          Product.with_stock p (sub (Product.stockLevel p) quantity)
            (date_now e 0) in
        let updatedProducts := <[index := updatedProduct]> (products r) in
        setProducts updatedProducts ;;
        let activity :=
          createStockActivity REMOVE productId quantity userId reason e in
        let updatedActivities := stockActivities r ++ [activity] in
        setStockActivities updatedActivities ;;
        ret true
    end
  end.

Definition adjustStock (r : World) (productId : string) (newQuantity : number)
    (userId : string) (reason : option string) (e : Env) : M bool :=
  match findIndex (fun p => Product.id p =? productId)%string (products r) with
  | None => ret false
  | Some index =>
    match products r !! index with
    | None => ret false
    | Some p =>
      let difference := sub newQuantity (Product.stockLevel p) in
      let updatedProduct := Product.with_stock p newQuantity (date_now e 0) in
      let updatedProducts := <[index := updatedProduct]> (products r) in
      setProducts updatedProducts ;;
      let activity :=
        createStockActivity ADJUST productId (Math_abs difference) userId reason e in
      let updatedActivities := stockActivities r ++ [activity] in
      setStockActivities updatedActivities ;;
      ret true
    end
  end.

(** ** SalesContext.tsx *)

Definition mkSaleItem (r : World) (e : Env) (k : nat) (item : SaleItemData.t)
  : option SaleItem.t :=
  match List.find (fun p => Product.id p =? SaleItemData.productId item)%string
                  (products r) with
  | None => None
  | Some product =>
    let subtotal :=
      sub (mul (SaleItemData.quantity item) (SaleItemData.pricePerUnit item))
          (or_zero (SaleItemData.discount item)) in
    Some {| SaleItem.id := fresh_id e k;
            SaleItem.productId := SaleItemData.productId item;
            SaleItem.productSnapshot :=
              {| ProductSnapshot.id := Some (Product.id product);
                 ProductSnapshot.name := Some (Product.name product);
                 ProductSnapshot.sku := Product.sku product;
                 ProductSnapshot.price := Some (Product.price product) |};
            SaleItem.quantity := SaleItemData.quantity item;
            SaleItem.pricePerUnit := SaleItemData.pricePerUnit item;
            SaleItem.discount := SaleItemData.discount item;
            SaleItem.subtotal := subtotal |}
  end.

Fixpoint mapSaleItems (r : World) (e : Env) (k : nat)
    (itemsData : list SaleItemData.t) : option (list SaleItem.t) :=
  match itemsData with
  | [] => Some []
  | item :: rest =>
    match mkSaleItem r e k item with
    | None => None
    | Some saleItem =>
      match mapSaleItems r e (S k) rest with
      | None => None
      | Some saleItems => Some (saleItem :: saleItems)
      end
    end
  end.

Fixpoint updateInventory (r : World) (soldBy : string) (reason : string)
    (e : Env) (k : nat) (saleItems : list SaleItem.t) : M bool :=
  match saleItems with
  | [] => ret true
  | item :: rest =>
    let* success :=
      removeStock r (SaleItem.productId item) (SaleItem.quantity item)
        soldBy (Some reason) (env_shift k e) in
    if success : bool then updateInventory r soldBy reason e (S k) rest
    else ret false
  end.

Definition buildSale (saleItems : list SaleItem.t) (amountPaid : number)
    (soldBy : string) (customer : option Customer.t) (notes : option string)
    (newId : string) (createdAt updatedAt : Date) : Sale.t :=
  let totalAmount :=
    fold_left (fun acc item => add acc (SaleItem.subtotal item)) saleItems zero in
  let paymentStatus :=
    if ltb amountPaid totalAmount
    then (if eqb amountPaid zero then CREDIT else PARTIAL)
    else PAID in
  {| Sale.id := newId;
     Sale.items := saleItems;
     Sale.totalAmount := totalAmount;
     Sale.amountPaid := amountPaid;
     Sale.balance := sub totalAmount amountPaid;
     Sale.paymentStatus := paymentStatus;
     Sale.customer := customer;
     Sale.notes := notes;
     Sale.soldBy := soldBy;
     Sale.createdAt := createdAt;
     Sale.updatedAt := updatedAt |}.

Definition createSale (r : World) (itemsData : list SaleItemData.t)
    (amountPaid : number) (soldBy : string) (customer : option Customer.t)
    (notes : option string) (e : Env) : M (option Sale.t) :=
  match mapSaleItems r e 0 itemsData with
  | None => ret None
  | Some saleItems =>
    let n := length itemsData in
    let newSale :=
      buildSale saleItems amountPaid soldBy customer notes
        (fresh_id e n) (date_now e 0) (date_now e 1) in
    let* success :=
      updateInventory r soldBy (String.append "Sale: " (Sale.id newSale))
        e (S n) saleItems in
    if success : bool then
      let updatedSales := sales r ++ [newSale] in
      setSales updatedSales ;;
      ret (Some newSale)
    else ret None
  end.

Definition newPayment (saleId : string) (amount : number) (receivedBy : string)
    (paymentMethod : string) (notes : option string) (e : Env)
  : CreditPayment.t :=
  {| CreditPayment.id := fresh_id e 0;
     CreditPayment.saleId := saleId;
     CreditPayment.amount := amount;
     CreditPayment.paymentMethod := paymentMethod;
     CreditPayment.receivedBy := receivedBy;
     CreditPayment.notes := notes;
     CreditPayment.paymentDate := date_now e 0 |}.

Definition applyPayment (sale : Sale.t) (amount : number) (updatedAt : Date)
  : Sale.t :=
  {| Sale.id := Sale.id sale;
     Sale.items := Sale.items sale;
     Sale.totalAmount := Sale.totalAmount sale;
     Sale.amountPaid := add (Sale.amountPaid sale) amount;
     Sale.balance := sub (Sale.balance sale) amount;
     Sale.paymentStatus :=
       (* Use tolerance for float comparison *)
       if leb (sub (Sale.balance sale) amount) milli then PAID else PARTIAL;
     Sale.customer := Sale.customer sale;
     Sale.notes := Sale.notes sale;
     Sale.soldBy := Sale.soldBy sale;
     Sale.createdAt := Sale.createdAt sale;
     Sale.updatedAt := updatedAt |}.

Definition addCreditPayment (r : World) (saleId : string) (amount : number)
    (receivedBy : string) (paymentMethod : string) (notes : option string)
    (e : Env) : M (option CreditPayment.t) :=
  match findIndex (fun s => Sale.id s =? saleId)%string (sales r) with
  | None => ret None
  | Some saleIndex =>
    match sales r !! saleIndex with
    | None => ret None
    | Some sale =>
      if leb amount zero || ltb (Sale.balance sale) amount then ret None
      else
        let payment :=
          newPayment saleId amount receivedBy paymentMethod notes e in
        let updatedSale := applyPayment sale amount (date_now e 1) in
        let updatedSales := <[saleIndex := updatedSale]> (sales r) in
        let updatedPayments := creditPayments r ++ [payment] in
        setSales updatedSales ;;
        setCreditPayments updatedPayments ;;
        ret (Some payment)
    end
  end.

(** What a successful stock operation writes into the cells. *)
Definition stock_written (r w : World) (index : nat) (p' : Product.t)
    (a : StockActivity.t) : World :=
  mkWorld (<[index := p']> (products r)) (stockActivities r ++ [a])
          (sales w) (creditPayments w).

(** ** Properties of the state *)

(** A product list of doubles in which no stock level is negative. *)
Definition stock_nonneg (w : World) : Prop :=
  Forall (fun p => nonneg (Product.stockLevel p)) (products w).

(** Every stock level is a double. *)
Definition stock_valid (w : World) : Prop :=
  Forall (fun p => valid (Product.stockLevel p) = true) (products w).

(** ** Sample inputs *)

Definition demo_world : World := mkWorld (DEMO_PRODUCTS 0%Z) [] [] [].

Definition sample_item (productId : string) (quantity pricePerUnit : number)
  : SaleItemData.t :=
  {| SaleItemData.productId := productId;
     SaleItemData.productSnapshot := ProductSnapshot.mk None None None None;
     SaleItemData.quantity := quantity;
     SaleItemData.pricePerUnit := pricePerUnit;
     SaleItemData.discount := None |}.

(** One T-shirt at the price [price] with [paid] handed over. *)
Definition sale_one_shirt (price paid : number) : option Sale.t * World :=
  call (fun r => createSale r [sample_item "1" (of_Z 1) price] paid "2" None
                   None sample_env) demo_world.



(** Every quantity of the items is a double, and neither [NaN] nor an
    infinity. *)
Definition quantities_finite (itemsData : list SaleItemData.t) : Prop :=
  Forall (fun d => valid (SaleItemData.quantity d) = true /\
                   is_finite (SaleItemData.quantity d) = true) itemsData.

End Double.

(** * Lemmas *)

(** ** Numbers and lists *)

Lemma Qlt_bool_iff (a b : Q) : Qlt_bool a b = true <-> a < b.
Proof.
  unfold Qlt_bool. rewrite negb_true_iff.
  destruct (Qle_bool b a) eqn:E.
  - apply Qle_bool_iff in E. split; [discriminate | intros H; lra].
  - split; [intros _ | reflexivity].
    destruct (Qlt_le_dec a b) as [H | H]; [exact H |].
    apply Qle_bool_iff in H. congruence.
Qed.

Lemma Qlt_bool_false (a b : Q) : Qlt_bool a b = false <-> b <= a.
Proof.
  unfold Qlt_bool. rewrite negb_false_iff. apply Qle_bool_iff.
Qed.

Lemma findIndex_Some {A} (f : A -> bool) (l : list A) (i : nat) :
  findIndex f l = Some i ->
  exists x, l !! i = Some x /\ f x = true.
Proof.
  revert i. induction l as [| a l IH]; intros i; simpl; [discriminate |].
  destruct (f a) eqn:Fa.
  - intros [= <-]. exists a. split; [reflexivity | exact Fa].
  - destruct (findIndex f l) as [j |]; simpl; [| discriminate].
    intros [= <-]. destruct (IH j eq_refl) as (x & Hx & Fx).
    exists x. split; assumption.
Qed.

Lemma findIndex_None {A} (f : A -> bool) (l : list A) :
  findIndex f l = None <-> Forall (fun x => f x = false) l.
Proof.
  induction l as [| a l IH]; simpl.
  - split; [constructor | reflexivity].
  - destruct (f a) eqn:Fa.
    + split; [discriminate |]. intros H. inversion H; congruence.
    + destruct (findIndex f l) as [j |]; simpl.
      * split; [discriminate |]. intros H. inversion H; subst.
        destruct IH as [_ IH]. discriminate (IH ltac:(assumption)).
      * split; [| reflexivity]. intros _. constructor; [exact Fa |].
        apply IH. reflexivity.
Qed.

(** [find] returns the element at the position that [findIndex] returns. *)
Lemma find_findIndex {A} (f : A -> bool) (l : list A) :
  List.find f l = match findIndex f l with
                  | Some i => l !! i
                  | None => None
                  end.
Proof.
  induction l as [| a l IH]; simpl; [reflexivity |].
  destruct (f a); [reflexivity |].
  rewrite IH. destruct (findIndex f l); reflexivity.
Qed.

(** ** The stock operations, one equation each *)

Lemma addStock_eq r productId quantity userId reason e w :
  addStock r productId quantity userId reason e w =
  match findIndex (fun p => Product.id p =? productId)%string (products r) with
  | Some index =>
    match products r !! index with
    | Some p =>
      (true, stock_written r w index
               (Product.with_stock p (Product.stockLevel p + quantity) (date_now e 0))
               (createStockActivity ADD productId quantity userId reason e))
    | None => (false, w)
    end
  | None => (false, w)
  end.
Proof.
  unfold addStock. repeat case_match; reflexivity.
Qed.

Lemma removeStock_eq r productId quantity userId reason e w :
  removeStock r productId quantity userId reason e w =
  match findIndex (fun p => Product.id p =? productId)%string (products r) with
  | Some index =>
    match products r !! index with
    | Some p =>
      if Qlt_bool (Product.stockLevel p) quantity then (false, w)
      else
        (true, stock_written r w index
                 (Product.with_stock p (Product.stockLevel p - quantity) (date_now e 0))
                 (createStockActivity REMOVE productId quantity userId reason e))
    | None => (false, w)
    end
  | None => (false, w)
  end.
Proof.
  unfold removeStock. repeat case_match; reflexivity.
Qed.

Lemma adjustStock_eq r productId newQuantity userId reason e w :
  adjustStock r productId newQuantity userId reason e w =
  match findIndex (fun p => Product.id p =? productId)%string (products r) with
  | Some index =>
    match products r !! index with
    | Some p =>
      (true, stock_written r w index
               (Product.with_stock p newQuantity (date_now e 0))
               (createStockActivity ADJUST productId
                  (Math_abs (newQuantity - Product.stockLevel p)) userId reason e))
    | None => (false, w)
    end
  | None => (false, w)
  end.
Proof.
  unfold adjustStock. repeat case_match; reflexivity.
Qed.





Lemma removeStock_sales r productId quantity userId reason e w :
  let w' := snd (removeStock r productId quantity userId reason e w) in
  sales w' = sales w /\ creditPayments w' = creditPayments w.
Proof.
  simpl. rewrite removeStock_eq. repeat case_match; simpl; auto.
Qed.

(** ** The inventory loop of [createSale] *)

Lemma updateInventory_cons r soldBy reason e k item rest w :
  updateInventory r soldBy reason e k (item :: rest) w =
  let res := removeStock r (SaleItem.productId item) (SaleItem.quantity item)
               soldBy (Some reason) (env_shift k e) w in
  if fst res then updateInventory r soldBy reason e (S k) rest (snd res)
  else (false, snd res).
Proof.
  simpl. unfold bind.
  destruct (removeStock r _ _ soldBy (Some reason) (env_shift k e) w) as [[|] w'];
    reflexivity.
Qed.

(** Loop invariant: what every [removeStock] of the render preserves
    holds after the loop, whether it ends or throws. *)
Lemma updateInventory_inv (P : World -> Prop) r soldBy reason e :
  (forall w productId quantity e',
      P w -> P (snd (removeStock r productId quantity soldBy (Some reason) e' w))) ->
  forall saleItems k w,
    P w -> P (snd (updateInventory r soldBy reason e k saleItems w)).
Proof.
  intros Hstep saleItems.
  induction saleItems as [| item rest IH]; intros k w Hw; [exact Hw |].
  rewrite updateInventory_cons. cbv zeta.
  specialize (Hstep w (SaleItem.productId item) (SaleItem.quantity item)
                (env_shift k e) Hw).
  destruct (removeStock r _ _ soldBy (Some reason) (env_shift k e) w) as [[|] w'];
    simpl in *; [apply IH; exact Hstep | exact Hstep].
Qed.

Lemma updateInventory_sales r soldBy reason e k saleItems w :
  let w' := snd (updateInventory r soldBy reason e k saleItems w) in
  sales w' = sales w /\ creditPayments w' = creditPayments w.
Proof.
  simpl.
  apply (updateInventory_inv
           (fun w' => sales w' = sales w /\ creditPayments w' = creditPayments w));
    [| split; reflexivity].
  intros w0 productId quantity e' [Hs Hc].
  destruct (removeStock_sales r productId quantity soldBy (Some reason) e' w0)
    as [Hs' Hc'].
  split; congruence.
Qed.

(** ** [createSale], one equation *)

Lemma createSale_eq r itemsData amountPaid soldBy customer notes e w :
  createSale r itemsData amountPaid soldBy customer notes e w =
  match mapSaleItems r e 0 itemsData with
  | None => (None, w)
  | Some saleItems =>
    let newSale :=
      buildSale saleItems amountPaid soldBy customer notes
        (fresh_id e (length itemsData)) (date_now e 0) (date_now e 1) in
    let res :=
      updateInventory r soldBy (String.append "Sale: " (Sale.id newSale)) e
        (S (length itemsData)) saleItems w in
    if fst res
    then (Some newSale,
          mkWorld (products (snd res)) (stockActivities (snd res))
                  (sales r ++ [newSale]) (creditPayments (snd res)))
    else (None, snd res)
  end.
Proof.
  unfold createSale.
  destruct (mapSaleItems r e 0 itemsData) as [saleItems |]; [| reflexivity].
  cbv zeta. unfold bind.
  destruct (updateInventory r soldBy _ e (S (length itemsData)) saleItems w)
    as [[|] w']; reflexivity.
Qed.

(** * Stock levels *)


(** * Sales and credit payments *)

Lemma addCreditPayment_eq r saleId amount receivedBy paymentMethod notes e w :
  addCreditPayment r saleId amount receivedBy paymentMethod notes e w =
  match findIndex (fun s => Sale.id s =? saleId)%string (sales r) with
  | Some saleIndex =>
    match sales r !! saleIndex with
    | Some sale =>
      if Qle_bool amount 0 || Qlt_bool (Sale.balance sale) amount then (None, w)
      else
        (Some (newPayment saleId amount receivedBy paymentMethod notes e),
         mkWorld (products w) (stockActivities w)
           (<[saleIndex := applyPayment sale amount (date_now e 1)]> (sales r))
           (creditPayments r
              ++ [newPayment saleId amount receivedBy paymentMethod notes e]))
    | None => (None, w)
    end
  | None => (None, w)
  end.
Proof.
  unfold addCreditPayment. repeat case_match; reflexivity.
Qed.


(** * Sales and the stock *)

Lemma removeStock_fst r productId quantity userId reason e w :
  fst (removeStock r productId quantity userId reason e w)
  = canRemove r productId quantity.
Proof.
  rewrite removeStock_eq. unfold canRemove. rewrite find_findIndex.
  destruct (findIndex _ (products r)) as [index |]; [| reflexivity].
  destruct (products r !! index) as [p |]; [| reflexivity].
  destruct (Qlt_bool (Product.stockLevel p) quantity); reflexivity.
Qed.

(** A [removeStock] that goes through writes the same cells whatever the
    cells of the product container held before. *)
Lemma removeStock_overwrites r productId quantity userId reason e w1 w2 :
  canRemove r productId quantity = true ->
  sales w1 = sales w2 -> creditPayments w1 = creditPayments w2 ->
  snd (removeStock r productId quantity userId reason e w1)
  = snd (removeStock r productId quantity userId reason e w2).
Proof.
  intros Hcan Hs Hc.
  pose proof (removeStock_fst r productId quantity userId reason e w1) as H1.
  rewrite Hcan in H1. revert H1. rewrite !removeStock_eq.
  destruct (findIndex _ (products r)) as [index |]; [| discriminate].
  destruct (products r !! index) as [p |]; [| discriminate].
  destruct (Qlt_bool (Product.stockLevel p) quantity); [discriminate |].
  intros _. unfold stock_written. simpl. rewrite Hs, Hc. reflexivity.
Qed.

Lemma updateInventory_fst r soldBy reason e k saleItems w :
  fst (updateInventory r soldBy reason e k saleItems w)
  = forallb (fun item => canRemove r (SaleItem.productId item)
                           (SaleItem.quantity item)) saleItems.
Proof.
  revert k w. induction saleItems as [| item rest IH]; intros k w;
    [reflexivity |].
  rewrite updateInventory_cons. cbv zeta. rewrite removeStock_fst. simpl.
  destruct (canRemove r _ _); [apply IH | reflexivity].
Qed.

(** Last write wins: when the loop ends without a throw, the product
    cells hold what the [removeStock] of the last item wrote, computed
    from the render; the writes of the earlier items are overwritten. *)
Lemma updateInventory_last_write r soldBy reason e k saleItems last w :
  fst (updateInventory r soldBy reason e k (saleItems ++ [last]) w) = true ->
  snd (updateInventory r soldBy reason e k (saleItems ++ [last]) w)
  = snd (removeStock r (SaleItem.productId last) (SaleItem.quantity last)
           soldBy (Some reason) (env_shift (k + length saleItems) e) w).
Proof.
  revert k w. induction saleItems as [| item rest IH]; intros k w.
  - simpl app. rewrite updateInventory_cons. cbv zeta.
    rewrite Nat.add_0_r.
    destruct (removeStock r _ _ soldBy (Some reason) (env_shift k e) w)
      as [[|] w']; simpl; [reflexivity | discriminate].
  - simpl app. rewrite updateInventory_cons. cbv zeta.
    destruct (removeStock_sales r (SaleItem.productId item)
                (SaleItem.quantity item) soldBy (Some reason) (env_shift k e) w)
      as [Hs Hc].
    destruct (removeStock r (SaleItem.productId item) _ soldBy (Some reason)
                (env_shift k e) w) as [[|] w1]; simpl in *; [| discriminate].
    intros Hok. rewrite (IH (S k) w1 Hok).
    replace (S k + length rest)%nat with (k + S (length rest))%nat by lia.
    apply removeStock_overwrites; [| exact Hs | exact Hc].
    rewrite updateInventory_fst, forallb_app in Hok.
    apply andb_true_iff in Hok. destruct Hok as [_ Hok].
    simpl in Hok. rewrite andb_true_r in Hok. exact Hok.
Qed.

Lemma mkSaleItem_built r e k d item :
  mkSaleItem r e k d = Some item -> item_built_from d item.
Proof.
  unfold mkSaleItem, item_built_from.
  destruct (List.find _ (products r)); [| discriminate].
  intros [= <-]. simpl. repeat split; reflexivity.
Qed.

Lemma mapSaleItems_built r e k itemsData saleItems :
  mapSaleItems r e k itemsData = Some saleItems ->
  Forall2 item_built_from itemsData saleItems.
Proof.
  revert k saleItems.
  induction itemsData as [| d rest IH]; intros k saleItems; simpl.
  - intros [= <-]. constructor.
  - destruct (mkSaleItem r e k d) as [item |] eqn:Hitem; [| discriminate].
    destruct (mapSaleItems r e (S k) rest) as [items |] eqn:Hrest;
      [| discriminate].
    intros [= <-]. constructor; [eapply mkSaleItem_built; eassumption |].
    eapply IH; eassumption.
Qed.

Lemma mapSaleItems_None r e k itemsData :
  mapSaleItems r e k itemsData = None <->
  Exists (fun d => List.find (fun p => Product.id p =? SaleItemData.productId d)%string
                     (products r) = None) itemsData.
Proof.
  revert k. induction itemsData as [| d rest IH]; intros k; simpl.
  - split; [discriminate | intros H; inversion H].
  - unfold mkSaleItem at 1.
    destruct (List.find _ (products r)) as [p |] eqn:Hfind.
    + destruct (mapSaleItems r e (S k) rest) as [items |] eqn:Hrest.
      * split; [discriminate |]. intros H. inversion H; subst; [congruence |].
        apply (IH (S k)) in H1. congruence.
      * split; [| reflexivity]. intros _. apply Exists_cons_tl.
        apply (IH (S k)). exact Hrest.
    + split; [| reflexivity]. intros _. apply Exists_cons_hd. exact Hfind.
Qed.

Lemma canRemove_false r (d : SaleItemData.t) :
  canRemove r (SaleItemData.productId d) (SaleItemData.quantity d) = false
  <-> cannot_sell r d.
Proof.
  unfold canRemove, cannot_sell.
  destruct (List.find _ (products r)) as [p |]; [| tauto].
  rewrite negb_false_iff. apply Qlt_bool_iff.
Qed.

Lemma forallb_canRemove r itemsData saleItems :
  Forall2 item_built_from itemsData saleItems ->
  forallb (fun item => canRemove r (SaleItem.productId item)
                         (SaleItem.quantity item)) saleItems
  = forallb (fun d => canRemove r (SaleItemData.productId d)
                        (SaleItemData.quantity d)) itemsData.
Proof.
  induction 1 as [| d item ds items (Hp & Hq & _) _ IH]; [reflexivity |].
  simpl. rewrite Hp, Hq, IH. reflexivity.
Qed.

Lemma forallb_false_Exists {A} (f : A -> bool) (l : list A) :
  forallb f l = false <-> Exists (fun x => f x = false) l.
Proof.
  induction l as [| a l IH]; simpl.
  - split; [discriminate | intros H; inversion H].
  - rewrite andb_false_iff, Exists_cons, IH. reflexivity.
Qed.

(** [createSale] returns [null] exactly when some item cannot be sold in
    its render. *)
Lemma createSale_None_iff r itemsData amountPaid soldBy customer notes e w :
  fst (createSale r itemsData amountPaid soldBy customer notes e w) = None
  <-> Exists (cannot_sell r) itemsData.
Proof.
  rewrite createSale_eq.
  destruct (mapSaleItems r e 0 itemsData) as [saleItems |] eqn:Hmap.
  - cbv zeta.
    match goal with
    | |- context [updateInventory r soldBy ?reason e ?k saleItems w] =>
        pose proof (updateInventory_fst r soldBy reason e k saleItems w) as Hfst;
        destruct (updateInventory r soldBy reason e k saleItems w) as [ok w']
    end.
    simpl in Hfst.
    rewrite (forallb_canRemove r itemsData saleItems) in Hfst
      by (eapply mapSaleItems_built; exact Hmap).
    destruct ok; simpl.
    + split; [discriminate |]. intros Hex.
      assert (Hf : forallb (fun d => canRemove r (SaleItemData.productId d)
                                       (SaleItemData.quantity d)) itemsData = false).
      { apply forallb_false_Exists. eapply Exists_impl; [exact Hex |].
        intros d Hd. apply canRemove_false. exact Hd. }
      congruence.
    + split; [| reflexivity]. intros _.
      symmetry in Hfst. apply forallb_false_Exists in Hfst.
      eapply Exists_impl; [exact Hfst |].
      intros d Hd. apply canRemove_false. exact Hd.
  - simpl. split; [| reflexivity]. intros _.
    apply mapSaleItems_None in Hmap.
    eapply Exists_impl; [exact Hmap |].
    intros d Hd. unfold cannot_sell. rewrite Hd. exact I.
Qed.

Lemma createSale_None_sales r itemsData amountPaid soldBy customer notes e w :
  fst (createSale r itemsData amountPaid soldBy customer notes e w) = None ->
  sales (snd (createSale r itemsData amountPaid soldBy customer notes e w))
    = sales w /\
  creditPayments (snd (createSale r itemsData amountPaid soldBy customer notes e w))
    = creditPayments w.
Proof.
  rewrite createSale_eq.
  destruct (mapSaleItems r e 0 itemsData) as [saleItems |]; [| auto].
  cbv zeta.
  match goal with
  | |- context [updateInventory r soldBy ?reason e ?k saleItems w] =>
      pose proof (updateInventory_sales r soldBy reason e k saleItems w) as Hs;
      destruct (updateInventory r soldBy reason e k saleItems w) as [[|] w']
  end; simpl in *; [discriminate | intros _; exact Hs].
Qed.

(** C6.  [createSale] returns [null] exactly when some item names a
    product that is not in the list or asks for more than its stock
    level; the lists of sales and of credit payments are then unchanged;
    and the stock that an earlier item of the same call removed stays
    removed: in the demo products a sale of two T-shirts and thirty pairs
    of jeans fails and leaves 23 T-shirts instead of 25. *)
Theorem createSale_failure_no_rollback :
  (forall w itemsData amountPaid soldBy customer notes e,
      let res :=
        call (fun r => createSale r itemsData amountPaid soldBy customer notes e) w
      in
      (fst res = None <-> Exists (cannot_sell w) itemsData) /\
      (fst res = None ->
       sales (snd res) = sales w /\ creditPayments (snd res) = creditPayments w))
  /\
  (fst sale_out_of_stock = None /\
   sales (snd sale_out_of_stock) = sales demo_world /\
   map Product.stockLevel (products demo_world) = [25; 15; 8] /\
   map Product.stockLevel (products (snd sale_out_of_stock)) = [23; 15; 8] /\
   products (snd sale_out_of_stock) <> products demo_world).
Proof.
  split.
  - intros w itemsData amountPaid soldBy customer notes e. cbv zeta.
    unfold call. split.
    + apply createSale_None_iff.
    + apply createSale_None_sales.
  - repeat split; try (vm_compute; reflexivity).
    intros H. apply (f_equal (map Product.stockLevel)) in H.
    vm_compute in H. discriminate H.
Qed.

Lemma createSale_failure_no_rollback_witness :
  Exists (cannot_sell demo_world)
    [sample_item "1" 2 1500; sample_item "2" 30 3500] /\
  fst sale_out_of_stock = None /\
  sales (snd sale_out_of_stock) = sales demo_world.
Proof.
  assert (Hex : Exists (cannot_sell demo_world)
                  [sample_item "1" 2 1500; sample_item "2" 30 3500]).
  { apply Exists_cons_tl, Exists_cons_hd. unfold cannot_sell. simpl.
    unfold Qlt. simpl. lia. }
  destruct (proj1 createSale_failure_no_rollback demo_world
              [sample_item "1" 2 1500; sample_item "2" 30 3500]
              0 "2" None None sample_env) as [Hiff Hsales].
  pose proof (proj2 Hiff Hex) as Hnone.
  split; [exact Hex |].
  split; [exact Hnone |].
  exact (proj1 (Hsales Hnone)).
Defined.

(** ** Stock decrement on sale *)

Lemma removeStock_canRemove r productId quantity userId reason e w :
  canRemove r productId quantity = true ->
  exists index p,
    findIndex (fun p => Product.id p =? productId)%string (products r)
      = Some index /\
    products r !! index = Some p /\
    quantity <= Product.stockLevel p /\
    removeStock r productId quantity userId reason e w
    = (true, stock_written r w index
               (Product.with_stock p (Product.stockLevel p - quantity)
                  (date_now e 0))
               (createStockActivity REMOVE productId quantity userId reason e)).
Proof.
  unfold canRemove. rewrite find_findIndex, removeStock_eq.
  destruct (findIndex _ (products r)) as [index |] eqn:Hi; [| discriminate].
  destruct (products r !! index) as [p |] eqn:Hp; [| discriminate].
  destruct (Qlt_bool (Product.stockLevel p) quantity) eqn:Hlt; [discriminate |].
  intros _. exists index, p. apply Qlt_bool_false in Hlt.
  split; [reflexivity |]. split; [exact Hp |]. split; [exact Hlt |].
  reflexivity.
Qed.

(** What a sale that goes through leaves in the cells of the product
    container: the list of the render with the product of the LAST item
    decremented, and the log of the render with the entry of the last
    item.  Every iteration of the loop calls the [removeStock] of the
    same render, so each one starts again from the lists of that render
    and its setters replace what the iteration before it wrote. *)
Lemma createSale_writes_last_item w itemsData last amountPaid soldBy customer
    notes e sale w' :
  call (fun r => createSale r (itemsData ++ [last]) amountPaid soldBy customer
                   notes e) w = (Some sale, w') ->
  exists index p d a,
    findIndex (fun p => Product.id p =? SaleItemData.productId last)%string
      (products w) = Some index /\
    products w !! index = Some p /\
    products w' =
      <[index := Product.with_stock p
                   (Product.stockLevel p - SaleItemData.quantity last)
                   d]>
        (products w) /\
    stockActivities w' = stockActivities w ++ [a] /\
    StockActivity.productId a = SaleItemData.productId last /\
    StockActivity.quantity a = SaleItemData.quantity last.
Proof.
  unfold call. rewrite createSale_eq.
  destruct (mapSaleItems w e 0 (itemsData ++ [last])) as [saleItems |] eqn:Hmap;
    [| discriminate].
  cbv zeta.
  apply mapSaleItems_built in Hmap.
  apply Forall2_app_inv_l in Hmap.
  destruct Hmap as (items1 & items2 & _ & Hlast & ->).
  inversion Hlast as [| ? lastItem ? tl (Hp & Hq & _) Htl]; subst.
  inversion Htl; subst.
  set (reason := String.append "Sale: " _).
  generalize (S (length (itemsData ++ [last]))). intros k.
  pose proof (updateInventory_last_write w soldBy reason e k items1 lastItem w)
    as Hwrite.
  pose proof (updateInventory_fst w soldBy reason e k (items1 ++ [lastItem]) w)
    as Hfst.
  rewrite forallb_app in Hfst. cbn [forallb] in Hfst.
  rewrite andb_true_r in Hfst.
  destruct (updateInventory w soldBy reason e k (items1 ++ [lastItem]) w)
    as [ok w'']. cbn [fst snd] in *.
  destruct ok; [| discriminate].
  intros [= _ <-]. cbn [products stockActivities].
  rewrite (Hwrite eq_refl).
  symmetry in Hfst. apply andb_true_iff in Hfst. destruct Hfst as [_ Hcan].
  destruct (removeStock_canRemove w _ _ soldBy (Some reason)
              (env_shift (k + length items1) e) w Hcan)
    as (index & p & Hi & Hlook & _ & Hrun).
  rewrite Hrun. cbn [snd stock_written products stockActivities].
  rewrite Hp in Hi. rewrite Hp, Hq.
  exists index, p, (date_now (env_shift (k + length items1) e) 0),
    (createStockActivity REMOVE (SaleItemData.productId last)
       (SaleItemData.quantity last) soldBy (Some reason)
       (env_shift (k + length items1) e)).
  repeat split; assumption.
Qed.

(** C4 on the demo products: a sale of two T-shirts (product 1) and
    three pairs of jeans (product 2) goes through; afterwards product 2
    has 12 = 15 - 3 in stock, and product 1 still has 25, not 23.  The
    second [removeStock] of the loop starts from the product list of the
    render, in which product 1 is not yet decremented, and its
    [setProducts] replaces the list that the first one wrote. *)
Theorem createSale_two_items_decrements_last_only :
  exists sale,
    fst sale_two_items = Some sale /\
    map (fun i => (SaleItem.productId i, SaleItem.quantity i)) (Sale.items sale)
      = [("1", 2); ("2", 3)] /\
    map (fun p => (Product.id p, Product.stockLevel p)) (products demo_world)
      = [("1", 25); ("2", 15); ("3", 8)] /\
    map (fun p => (Product.id p, Product.stockLevel p))
        (products (snd sale_two_items))
      = [("1", 25); ("2", 12); ("3", 8)].
Proof.
  eexists. repeat split; vm_compute; reflexivity.
Qed.

(** ** The log of stock activities *)

(** Called by the current render, a stock operation that returns [true]
    appends one entry to the log. *)
Lemma stock_operation_appends_entry w productId quantity userId reason e :
  (forall w',
      call (fun r => addStock r productId quantity userId reason e) w = (true, w') ->
      stockActivities w' = stockActivities w
        ++ [createStockActivity ADD productId quantity userId reason e]) /\
  (forall w',
      call (fun r => removeStock r productId quantity userId reason e) w
        = (true, w') ->
      stockActivities w' = stockActivities w
        ++ [createStockActivity REMOVE productId quantity userId reason e]) /\
  (forall w' index p,
      call (fun r => adjustStock r productId quantity userId reason e) w
        = (true, w') ->
      findIndex (fun p => Product.id p =? productId)%string (products w)
        = Some index ->
      products w !! index = Some p ->
      stockActivities w' = stockActivities w
        ++ [createStockActivity ADJUST productId
              (Math_abs (quantity - Product.stockLevel p)) userId reason e]).
Proof.
  unfold call. split; [| split].
  - intros w'. rewrite addStock_eq.
    repeat case_match; intros [= <-]; reflexivity.
  - intros w'. rewrite removeStock_eq.
    repeat case_match; intros [= <-]; reflexivity.
  - intros w' index p. rewrite adjustStock_eq. intros Hrun Hi Hp.
    rewrite Hi, Hp in Hrun. injection Hrun as <-. reflexivity.
Qed.

(** C10 on the demo products: the two [removeStock] calls that the sale
    of [sale_two_items] makes both return [true]; the first leaves in
    the log an entry for product 1, the second leaves a log that holds
    an entry for product 2 only, and that is the log after the sale: two
    successful calls, one entry, and the entry of the first call is
    gone. *)
Theorem createSale_two_items_log_loses_entry :
  let first :=
    removeStock demo_world "1" 2 "2" (Some "Sale: c") (env_shift 3 sample_env)
      demo_world in
  let second :=
    removeStock demo_world "2" 3 "2" (Some "Sale: c") (env_shift 4 sample_env)
      (snd first) in
  let entry a :=
    (StockActivity.productId a, StockActivity.type a, StockActivity.quantity a) in
  updateInventory demo_world "2" "Sale: c" sample_env 3
    (match fst sale_two_items with Some s => Sale.items s | None => [] end)
    demo_world = (true, snd second) /\
  fst first = true /\ fst second = true /\
  stockActivities demo_world = [] /\
  map entry (stockActivities (snd first)) = [("1", REMOVE, 2)] /\
  map entry (stockActivities (snd second)) = [("2", REMOVE, 3)] /\
  stockActivities (snd sale_two_items) = stockActivities (snd second).
Proof.
  cbv zeta. repeat split; vm_compute; reflexivity.
Qed.

(** ** Credit payments *)

(** C5.  When [addCreditPayment] returns a payment, the sale with that
    id (the first one in the list) has its balance decreased and its
    amount paid increased by the amount, the sales at the other
    positions are unchanged, and the payment, which carries the sale id
    and the amount, is appended to the list of credit payments. *)
Theorem addCreditPayment_success w saleId amount receivedBy paymentMethod
    notes e payment w' :
  call (fun r => addCreditPayment r saleId amount receivedBy paymentMethod
                   notes e) w = (Some payment, w') ->
  exists i sale sale',
    findIndex (fun s => Sale.id s =? saleId)%string (sales w) = Some i /\
    sales w !! i = Some sale /\
    Sale.id sale = saleId /\
    sales w' !! i = Some sale' /\
    Sale.id sale' = saleId /\
    Sale.balance sale' = Sale.balance sale - amount /\
    Sale.amountPaid sale' = Sale.amountPaid sale + amount /\
    Sale.totalAmount sale' = Sale.totalAmount sale /\
    Sale.items sale' = Sale.items sale /\
    (forall j, j <> i -> sales w' !! j = sales w !! j) /\
    length (sales w') = length (sales w) /\
    creditPayments w' = creditPayments w ++ [payment] /\
    CreditPayment.saleId payment = saleId /\
    CreditPayment.amount payment = amount /\
    products w' = products w /\
    stockActivities w' = stockActivities w.
Proof.
  unfold call. rewrite addCreditPayment_eq.
  destruct (findIndex _ (sales w)) as [i |] eqn:Hi; [| discriminate].
  destruct (sales w !! i) as [sale |] eqn:Hsale; [| discriminate].
  destruct (Qle_bool amount 0 || Qlt_bool (Sale.balance sale) amount);
    [discriminate |].
  intros [= <- <-].
  exists i, sale, (applyPayment sale amount (date_now e 1)).
  assert (Hid : Sale.id sale = saleId).
  { apply findIndex_Some in Hi. destruct Hi as (x & Hx & Heq).
    rewrite Hsale in Hx. injection Hx as <-.
    apply String.eqb_eq. exact Heq. }
  cbn [sales creditPayments products stockActivities].
  repeat split; try reflexivity; try assumption.
  - apply list_lookup_insert_eq. eapply lookup_lt_Some. exact Hsale.
  - intros j Hj. apply list_lookup_insert_ne. congruence.
  - apply length_insert.
Qed.

Lemma addCreditPayment_success_witness :
  exists payment,
    fst sale_then_payment = Some payment /\
    map (fun s => (Sale.id s, Sale.totalAmount s, Sale.amountPaid s, Sale.balance s))
        (sales (snd sale_two_items)) = [("c", 13500, 0, 13500 - 0)] /\
    exists i sale',
      sales (snd sale_then_payment) !! i = Some sale' /\
      Sale.balance sale' = 13500 - 0 - 500 /\
      Sale.amountPaid sale' = 0 + 500 /\
      creditPayments (snd sale_then_payment)
        = creditPayments (snd sale_two_items) ++ [payment].
Proof.
  destruct sale_then_payment as [[payment |] w'] eqn:E; [| discriminate E].
  exists payment. split; [reflexivity |].
  split; [vm_compute; reflexivity |].
  destruct (addCreditPayment_success (snd sale_two_items) "c" 500 "2" "cash"
              None sample_env payment w' E)
    as (i & sale & sale' & Hi & Hsale & _ & Hsale' & _ & Hbal & Hpaid & _ & _
        & _ & _ & Hpay & _).
  exists i, sale'.
  assert (Hi0 : i = 0%nat) by (vm_compute in Hi; congruence).
  subst i. vm_compute in Hsale. injection Hsale as <-.
  repeat split; assumption.
Defined.

(** C7.  [addCreditPayment] returns [null] exactly when no sale has the
    given id, or the amount is not positive, or the amount exceeds the
    balance of that sale; and then the lists of sales and of credit
    payments, with the rest of the state, are unchanged. *)
Theorem addCreditPayment_failure w saleId amount receivedBy paymentMethod
    notes e :
  let res :=
    call (fun r => addCreditPayment r saleId amount receivedBy paymentMethod
                     notes e) w in
  (fst res = None <->
     (Forall (fun s => Sale.id s <> saleId) (sales w) \/
      amount <= 0 \/
      exists i sale,
        findIndex (fun s => Sale.id s =? saleId)%string (sales w) = Some i /\
        sales w !! i = Some sale /\
        Sale.balance sale < amount)) /\
  (fst res = None -> snd res = w).
Proof.
  cbv zeta. unfold call. rewrite addCreditPayment_eq.
  destruct (findIndex _ (sales w)) as [i |] eqn:Hi.
  - destruct (findIndex_Some _ _ _ Hi) as (sale & Hsale & Heq).
    rewrite Hsale.
    assert (Hnot : ~ Forall (fun s => Sale.id s <> saleId) (sales w)).
    { intros Hall. rewrite Forall_lookup in Hall.
      apply (Hall _ _ Hsale). apply String.eqb_eq. exact Heq. }
    destruct (Qle_bool amount 0) eqn:Hle; simpl.
    + apply Qle_bool_iff in Hle. split; [| reflexivity].
      split; [intros _; right; left; exact Hle | reflexivity].
    + assert (Hpos : 0 < amount).
      { apply Qlt_bool_iff. unfold Qlt_bool. rewrite Hle. reflexivity. }
      destruct (Qlt_bool (Sale.balance sale) amount) eqn:Hlt; simpl.
      * apply Qlt_bool_iff in Hlt. split; [| reflexivity].
        split; [| reflexivity]. intros _. right; right.
        exists i, sale. auto.
      * apply Qlt_bool_false in Hlt. split; [| discriminate].
        split; [discriminate |].
        intros [Hall | [Hle' | (j & sale2 & Hj & Hsale2 & Hlt')]].
        -- contradiction.
        -- lra.
        -- injection Hj as <-. rewrite Hsale in Hsale2.
           injection Hsale2 as <-. lra.
  - simpl. split; [| reflexivity]. split; [| reflexivity].
    intros _. left. apply findIndex_None in Hi.
    eapply Forall_impl; [exact Hi |].
    intros s Hs. simpl in Hs. apply String.eqb_neq. exact Hs.
Qed.

Lemma addCreditPayment_failure_witness :
  Sale.balance <$> sales (snd sale_two_items) = [13500 - 0] /\
  call (fun r => addCreditPayment r "c" 14000 "2" "cash" None sample_env)
       (snd sale_two_items) = (None, snd sale_two_items).
Proof.
  split; [vm_compute; reflexivity |].
  destruct (addCreditPayment_failure (snd sale_two_items) "c" 14000 "2" "cash"
              None sample_env) as [Hiff Hsame].
  cbv zeta in Hiff, Hsame.
  assert (Hnone :
    fst (call (fun r => addCreditPayment r "c" 14000 "2" "cash" None sample_env)
           (snd sale_two_items)) = None).
  { apply Hiff. right; right. eexists 0%nat, _.
    split; [vm_compute; reflexivity |].
    split; [vm_compute; reflexivity |].
    vm_compute. reflexivity. }
  specialize (Hsame Hnone).
  destruct (call _ (snd sale_two_items)) as [res w'].
  simpl in *. subst. reflexivity.
Defined.

(** ** Amounts of a sale *)





(** * Login *)

Lemma DEMO_USERS_find boot username password :
  List.find (fun u => (User.username u =? username)%string
                      && (User.password u =? password)%string)
            (DEMO_USERS boot)
  = if ((username =? "admin") && (password =? "admin123"))%string
    then nth_error (DEMO_USERS boot) 0
    else if ((username =? "sales") && (password =? "sales123"))%string
         then nth_error (DEMO_USERS boot) 1
         else None.
Proof.
  unfold DEMO_USERS. cbn [List.find User.username User.password nth_error].
  rewrite (String.eqb_sym "admin" username), (String.eqb_sym "admin123" password),
    (String.eqb_sym "sales" username), (String.eqb_sym "sales123" password).
  destruct ((username =? "admin") && (password =? "admin123"))%string;
    [reflexivity |].
  destruct ((username =? "sales") && (password =? "sales123"))%string;
    reflexivity.
Qed.

(** C9.  [login] returns [true] exactly when the pair is
    "admin"/"admin123" or "sales"/"sales123" and the write to the storage
    succeeds; the user is then the demo user of that name, with role
    ADMIN or SALESMAN; in every other case [login] returns [false] and
    the user cell keeps its content, so a user that was [null] stays
    [null]. *)
Theorem login_spec boot username password storageOk user :
  let res := login boot username password storageOk user in
  (fst res = true <->
     ((username = "admin" /\ password = "admin123") \/
      (username = "sales" /\ password = "sales123")) /\
     storageOk = true) /\
  (fst res = true ->
     exists u, snd res = Some u /\ In u (DEMO_USERS boot) /\
       User.username u = username /\ User.password u = password /\
       User.role u = (if (username =? "admin")%string then ADMIN else SALESMAN)) /\
  (fst res = false -> snd res = user) /\
  (fst res = false -> user = None -> isAuthenticated (snd res) = false).
Proof.
  cbv zeta. unfold login. rewrite DEMO_USERS_find.
  destruct ((username =? "admin") && (password =? "admin123"))%string eqn:Ea;
    [| destruct ((username =? "sales") && (password =? "sales123"))%string eqn:Es].
  - apply andb_true_iff in Ea. destruct Ea as [Eu Ep].
    apply String.eqb_eq in Eu, Ep. subst. cbn [nth_error DEMO_USERS].
    destruct storageOk; cbn [fst snd].
    + split; [split; [intros _; split; [left; split |]; reflexivity | reflexivity] |].
      split; [| split; discriminate].
      intros _. eexists. split; [reflexivity |].
      split; [left; reflexivity |]. repeat split; reflexivity.
    + split; [split; [discriminate | intros [_ H]; discriminate H] |].
      split; [discriminate |]. split; [reflexivity | intros _ ->; reflexivity].
  - apply andb_true_iff in Es. destruct Es as [Eu Ep].
    apply String.eqb_eq in Eu, Ep. subst. cbn [nth_error DEMO_USERS].
    destruct storageOk; cbn [fst snd].
    + split; [split; [intros _; split; [right; split |]; reflexivity | reflexivity] |].
      split; [| split; discriminate].
      intros _. eexists. split; [reflexivity |].
      split; [right; left; reflexivity |]. repeat split; reflexivity.
    + split; [split; [discriminate | intros [_ H]; discriminate H] |].
      split; [discriminate |]. split; [reflexivity | intros _ ->; reflexivity].
  - cbn [fst snd].
    split; [split; [discriminate |] |].
    + intros [[[-> ->] | [-> ->]] _]; cbn in Ea, Es; discriminate.
    + split; [discriminate |]. split; [reflexivity | intros _ ->; reflexivity].
Qed.

Lemma login_spec_witness :
  fst (login 0%Z "admin" "admin123" true None) = true /\
  (exists u, snd (login 0%Z "admin" "admin123" true None) = Some u /\
             User.role u = ADMIN) /\
  login 0%Z "admin" "sales123" true None = (false, None).
Proof.
  pose proof (login_spec 0%Z "admin" "admin123" true None) as (Hiff & Hok & _).
  pose proof (login_spec 0%Z "admin" "sales123" true None) as (_ & _ & Hsame & _).
  cbv zeta in *.
  assert (Htrue : fst (login 0%Z "admin" "admin123" true None) = true).
  { apply Hiff. split; [left; split; reflexivity | reflexivity]. }
  split; [exact Htrue |].
  split.
  - destruct (Hok Htrue) as (u & Hu & _ & _ & _ & Hrole).
    exists u. split; [exact Hu | exact Hrole].
  - specialize (Hsame eq_refl).
    destruct (login 0%Z "admin" "sales123" true None) as [b u] eqn:E.
    simpl in Hsame. subst u. vm_compute in E. injection E as <-. reflexivity.
Defined.

(** * More of the product container *)


Lemma catalogue_entry_with_stock p v d :
  catalogue_entry (Product.with_stock p v d) = catalogue_entry p.
Proof. reflexivity. Qed.

Lemma stock_written_catalogue r w index p v d a :
  products r !! index = Some p ->
  map catalogue_entry (products (stock_written r w index (Product.with_stock p v d) a))
  = map catalogue_entry (products r).
Proof.
  intros Hp. unfold stock_written. cbn [products].
  change (map catalogue_entry) with (fmap (M := list) catalogue_entry).
  rewrite list_fmap_insert, catalogue_entry_with_stock.
  apply list_insert_id. rewrite list_lookup_fmap, Hp. reflexivity.
Qed.

Lemma addStock_catalogue r productId quantity userId reason e w :
  map catalogue_entry (products w) = map catalogue_entry (products r) ->
  map catalogue_entry (products (snd (addStock r productId quantity userId reason e w)))
  = map catalogue_entry (products r).
Proof.
  intros Hw. rewrite addStock_eq.
  destruct (findIndex _ (products r)) as [index |]; [| exact Hw].
  destruct (products r !! index) as [p |] eqn:Hp; [| exact Hw].
  apply stock_written_catalogue. exact Hp.
Qed.

Lemma removeStock_catalogue r productId quantity userId reason e w :
  map catalogue_entry (products w) = map catalogue_entry (products r) ->
  map catalogue_entry
    (products (snd (removeStock r productId quantity userId reason e w)))
  = map catalogue_entry (products r).
Proof.
  intros Hw. rewrite removeStock_eq.
  destruct (findIndex _ (products r)) as [index |]; [| exact Hw].
  destruct (products r !! index) as [p |] eqn:Hp; [| exact Hw].
  destruct (Qlt_bool (Product.stockLevel p) quantity); [exact Hw |].
  apply stock_written_catalogue. exact Hp.
Qed.

Lemma adjustStock_catalogue r productId newQuantity userId reason e w :
  map catalogue_entry (products w) = map catalogue_entry (products r) ->
  map catalogue_entry
    (products (snd (adjustStock r productId newQuantity userId reason e w)))
  = map catalogue_entry (products r).
Proof.
  intros Hw. rewrite adjustStock_eq.
  destruct (findIndex _ (products r)) as [index |]; [| exact Hw].
  destruct (products r !! index) as [p |] eqn:Hp; [| exact Hw].
  apply stock_written_catalogue. exact Hp.
Qed.

Lemma createSale_catalogue r itemsData amountPaid soldBy customer notes e w :
  map catalogue_entry (products w) = map catalogue_entry (products r) ->
  map catalogue_entry
    (products (snd (createSale r itemsData amountPaid soldBy customer notes e w)))
  = map catalogue_entry (products r).
Proof.
  intros Hw. rewrite createSale_eq.
  destruct (mapSaleItems r e 0 itemsData) as [saleItems |]; [| exact Hw].
  cbv zeta.
  set (reason := String.append "Sale: " _).
  pose proof (updateInventory_inv
    (fun w' => map catalogue_entry (products w') = map catalogue_entry (products r))
    r soldBy reason e
    (fun w0 productId quantity e' H =>
       removeStock_catalogue r productId quantity soldBy (Some reason) e' w0 H)
    saleItems (S (length itemsData)) w Hw) as H.
  destruct (updateInventory r soldBy reason e (S (length itemsData)) saleItems w)
    as [[|] w']; exact H.
Qed.

(** X1.  The stock operations, a sale and a credit payment change
    nothing of the catalogue: afterwards the list holds the same
    products in the same order, and every field of every product other
    than the stock level and the time of the update is as before. *)
Theorem stock_operations_keep_catalogue (w : World) (e : Env) :
  (forall productId quantity userId reason,
      map catalogue_entry
        (products (snd (call (fun r => addStock r productId quantity userId
                                         reason e) w)))
      = map catalogue_entry (products w)) /\
  (forall productId quantity userId reason,
      map catalogue_entry
        (products (snd (call (fun r => removeStock r productId quantity userId
                                         reason e) w)))
      = map catalogue_entry (products w)) /\
  (forall productId newQuantity userId reason,
      map catalogue_entry
        (products (snd (call (fun r => adjustStock r productId newQuantity
                                         userId reason e) w)))
      = map catalogue_entry (products w)) /\
  (forall itemsData amountPaid soldBy customer notes,
      map catalogue_entry
        (products (snd (call (fun r => createSale r itemsData amountPaid soldBy
                                         customer notes e) w)))
      = map catalogue_entry (products w)) /\
  (forall saleId amount receivedBy paymentMethod notes,
      products (snd (call (fun r => addCreditPayment r saleId amount receivedBy
                                      paymentMethod notes e) w))
      = products w).
Proof.
  unfold call. repeat split; intros.
  - apply addStock_catalogue. reflexivity.
  - apply removeStock_catalogue. reflexivity.
  - apply adjustStock_catalogue. reflexivity.
  - apply createSale_catalogue. reflexivity.
  - rewrite addCreditPayment_eq. repeat case_match; reflexivity.
Qed.


(** ** Catalogue operations *)

Lemma findIndex_filter_out (l : list Product.t) (id : string) :
  findIndex (fun p => Product.id p =? id)%string
    (List.filter (fun p => negb (Product.id p =? id)%string) l) = None.
Proof.
  apply findIndex_None. apply Forall_forall. intros p Hp.
  apply list_elem_of_In, filter_In in Hp. destruct Hp as [_ Hp].
  apply negb_true_iff in Hp. exact Hp.
Qed.

Lemma find_filter_out (l : list Product.t) (id : string) :
  List.find (fun p => Product.id p =? id)%string
    (List.filter (fun p => negb (Product.id p =? id)%string) l) = None.
Proof.
  rewrite find_findIndex, findIndex_filter_out. reflexivity.
Qed.

(** X3.  [deleteProduct] returns [true] whether or not the id exists; it
    drops every product with that id, keeps the others in order, and
    leaves the log of stock activities, with the entries of the deleted
    product, as it is.  Afterwards the stock operations and
    [updateProduct] on that id return [false] or [null] and change
    nothing, and a sale with an item of that id is refused. *)
Theorem deleteProduct_removes w id :
  let w1 := snd (call (fun r => deleteProduct r id) w) in
  fst (call (fun r => deleteProduct r id) w) = true /\
  products w1 = List.filter (fun p => negb (Product.id p =? id)%string) (products w) /\
  (forall p, In p (products w1) <-> In p (products w) /\ Product.id p <> id) /\
  stockActivities w1 = stockActivities w /\
  sales w1 = sales w /\ creditPayments w1 = creditPayments w /\
  (forall quantity userId reason e,
      call (fun r => addStock r id quantity userId reason e) w1 = (false, w1) /\
      call (fun r => removeStock r id quantity userId reason e) w1 = (false, w1) /\
      call (fun r => adjustStock r id quantity userId reason e) w1 = (false, w1)) /\
  (forall updates e,
      call (fun r => updateProduct r id updates e) w1 = (None, w1)) /\
  (forall itemsData amountPaid soldBy customer notes e,
      Exists (fun d => SaleItemData.productId d = id) itemsData ->
      fst (call (fun r => createSale r itemsData amountPaid soldBy customer
                             notes e) w1) = None).
Proof.
  cbv zeta. unfold call, deleteProduct, bind, setProducts, ret.
  cbn [fst snd products stockActivities sales creditPayments].
  split; [reflexivity |]. split; [reflexivity |].
  split.
  { intros p. rewrite filter_In, negb_true_iff, String.eqb_neq. reflexivity. }
  do 3 (split; [reflexivity |]).
  split; [| split].
  - intros quantity userId reason e.
    rewrite addStock_eq, removeStock_eq, adjustStock_eq.
    cbn [products]. rewrite findIndex_filter_out. repeat split.
  - intros updates e. unfold updateProduct. cbn [products].
    rewrite findIndex_filter_out. reflexivity.
  - intros itemsData amountPaid soldBy customer notes e Hex.
    apply createSale_None_iff.
    eapply Exists_impl; [exact Hex |].
    intros d Hd. unfold cannot_sell. cbn [products].
    rewrite Hd, find_filter_out. exact I.
Qed.

Lemma deleteProduct_removes_witness :
  map Product.id (products (snd (call (fun r => deleteProduct r "2") demo_world)))
    = ["1"; "3"] /\
  fst (call (fun r => createSale r [sample_item "2" 1 3500] 0 "2" None None
                        sample_env)
         (snd (call (fun r => deleteProduct r "2") demo_world))) = None.
Proof.
  split; [vm_compute; reflexivity |].
  destruct (deleteProduct_removes demo_world "2")
    as (_ & _ & _ & _ & _ & _ & _ & _ & Hsale).
  apply Hsale. apply Exists_cons_hd. reflexivity.
Defined.

(** X4.  [updateProduct] returns [null] and changes nothing when no
    product has the id.  Otherwise it returns the first product with
    that id merged with the updates and writes it at the same position;
    it never writes the log of stock activities, also when the updates
    carry a stock level; without [stockLevel] among the updates all
    stock levels stay, and without [id] all ids stay. *)
Theorem updateProduct_effect w id updates e :
  let res := call (fun r => updateProduct r id updates e) w in
  (Forall (fun p => Product.id p <> id) (products w) -> res = (None, w)) /\
  (forall index p,
      findIndex (fun p => Product.id p =? id)%string (products w) = Some index ->
      products w !! index = Some p ->
      fst res = Some (ProductUpdates.apply p updates (date_now e 0)) /\
      products (snd res)
        = <[index := ProductUpdates.apply p updates (date_now e 0)]> (products w)) /\
  stockActivities (snd res) = stockActivities w /\
  sales (snd res) = sales w /\
  creditPayments (snd res) = creditPayments w /\
  (ProductUpdates.stockLevel updates = None ->
   map Product.stockLevel (products (snd res)) = map Product.stockLevel (products w)) /\
  (ProductUpdates.id updates = None ->
   map Product.id (products (snd res)) = map Product.id (products w)).
Proof.
  cbv zeta. unfold call, updateProduct.
  destruct (findIndex _ (products w)) as [index |] eqn:Hi.
  - destruct (findIndex_Some _ _ _ Hi) as (p & Hp & Heq). rewrite Hp.
    unfold bind, setProducts, ret.
    cbn [fst snd products stockActivities sales creditPayments].
    split.
    { intros Hall. rewrite Forall_lookup in Hall.
      exfalso. apply (Hall _ _ Hp). apply String.eqb_eq. exact Heq. }
    split.
    { intros index' p' [= <-] Hp'. rewrite Hp in Hp'. injection Hp' as <-.
      split; reflexivity. }
    do 3 (split; [reflexivity |]).
    split; intros Hnone.
    + change (map Product.stockLevel) with (fmap (M := list) Product.stockLevel).
      rewrite list_fmap_insert. apply list_insert_id.
      rewrite list_lookup_fmap, Hp. simpl. rewrite Hnone. reflexivity.
    + change (map Product.id) with (fmap (M := list) Product.id).
      rewrite list_fmap_insert. apply list_insert_id.
      rewrite list_lookup_fmap, Hp. simpl. rewrite Hnone. reflexivity.
  - cbn [fst snd ret products stockActivities sales creditPayments].
    split; [reflexivity |]. split; [intros ? ? [=] |].
    repeat split; reflexivity.
Qed.

Lemma updateProduct_effect_witness :
  call (fun r => updateProduct r "9"
                   (ProductUpdates.mk None None None None (Some 1600) None None
                      None None None None None None) sample_env) demo_world
    = (None, demo_world) /\
  map Product.stockLevel
    (products (snd (call (fun r => updateProduct r "1"
                     (ProductUpdates.mk None None None None (Some 1600) None None
                        None None None None None None) sample_env) demo_world)))
    = map Product.stockLevel (products demo_world).
Proof.
  split.
  - apply (updateProduct_effect demo_world "9"). vm_compute.
    repeat constructor; discriminate.
  - apply (updateProduct_effect demo_world "1"). reflexivity.
Defined.

Lemma find_app_l {A} (f : A -> bool) (l1 l2 : list A) :
  List.find f (l1 ++ l2)
  = match List.find f l1 with
    | Some x => Some x
    | None => List.find f l2
    end.
Proof.
  induction l1 as [| a l1 IH]; simpl; [reflexivity |].
  destruct (f a); [reflexivity | exact IH].
Qed.

Lemma find_none_ids (l : list Product.t) (id : string) :
  Forall (fun p => Product.id p <> id) l ->
  List.find (fun p => Product.id p =? id)%string l = None.
Proof.
  induction 1 as [| a l Ha _ IH]; simpl; [reflexivity |].
  apply String.eqb_neq in Ha. rewrite Ha. exact IH.
Qed.

(** X5.  [addProduct] appends the new product, with the fields of its
    argument, after the products of the list and leaves them and the log
    alone.  A lookup by any other id finds what it found before.  When
    no product has the id drawn for the new one, a lookup by that id
    finds the new product; when one has, the lookup keeps finding the
    older product. *)
Theorem addProduct_then_find w productData e :
  let res := call (fun r => addProduct r productData e) w in
  let p := fst res in
  products (snd res) = products w ++ [p] /\
  Product.id p = fresh_id e 0 /\
  Product.name p = ProductData.name productData /\
  Product.price p = ProductData.price productData /\
  Product.costPrice p = ProductData.costPrice productData /\
  Product.stockLevel p = ProductData.stockLevel productData /\
  stockActivities (snd res) = stockActivities w /\
  (forall id, id <> Product.id p ->
     List.find (fun q => Product.id q =? id)%string (products (snd res))
     = List.find (fun q => Product.id q =? id)%string (products w)) /\
  (Forall (fun q => Product.id q <> Product.id p) (products w) ->
     List.find (fun q => Product.id q =? Product.id p)%string (products (snd res))
     = Some p) /\
  (forall q,
     List.find (fun q => Product.id q =? Product.id p)%string (products w) = Some q ->
     List.find (fun q => Product.id q =? Product.id p)%string (products (snd res))
     = Some q).
Proof.
  cbv zeta. unfold call, addProduct, bind, setProducts, ret.
  cbn [fst snd products stockActivities Product.id Product.name Product.price
       Product.costPrice Product.stockLevel].
  do 7 (split; [reflexivity |]).
  split; [| split].
  - intros id Hid. rewrite find_app_l.
    destruct (List.find _ (products w)); [reflexivity |].
    cbn [List.find Product.id].
    apply not_eq_sym, String.eqb_neq in Hid. rewrite Hid. reflexivity.
  - intros Hfresh. rewrite find_app_l, (find_none_ids _ _ Hfresh).
    cbn [List.find Product.id]. rewrite String.eqb_refl. reflexivity.
  - intros q Hq. rewrite find_app_l, Hq. reflexivity.
Qed.

Lemma addProduct_then_find_witness :
  let res :=
    call (fun r => addProduct r
                     (ProductData.mk "Cap" None None 900 500 40 5 3 "Clothing" None)
                     sample_env) demo_world in
  List.find (fun q => Product.id q =? "a")%string (products (snd res))
    = Some (fst res) /\
  Product.stockLevel (fst res) = 40.
Proof.
  cbv zeta.
  destruct (addProduct_then_find demo_world
              (ProductData.mk "Cap" None None 900 500 40 5 3 "Clothing" None)
              sample_env) as (_ & _ & _ & _ & _ & Hstock & _ & _ & Hfind & _).
  cbv zeta in Hfind, Hstock.
  split; [| exact Hstock].
  apply Hfind. vm_compute. repeat constructor; discriminate.
Defined.

(** * More of the sales container *)

(** ** Looking a sale up *)

Lemma find_none_sale_ids (l : list Sale.t) (id : string) :
  Forall (fun s => Sale.id s <> id) l ->
  List.find (fun s => Sale.id s =? id)%string l = None.
Proof.
  induction 1 as [| a l Ha _ IH]; simpl; [reflexivity |].
  apply String.eqb_neq in Ha. rewrite Ha. exact IH.
Qed.

(** X10.  After a sale that goes through, [getSale] by any other id
    returns what it returned before; [getSale] by the id of the new sale
    returns the new sale when no earlier sale has that id, and keeps
    returning the earlier sale when one has. *)
Theorem getSale_after_createSale w itemsData amountPaid soldBy customer notes e
    sale w' :
  call (fun r => createSale r itemsData amountPaid soldBy customer notes e) w
    = (Some sale, w') ->
  Sale.id sale = fresh_id e (length itemsData) /\
  (forall id, id <> Sale.id sale -> getSale w' id = getSale w id) /\
  (Forall (fun s => Sale.id s <> Sale.id sale) (sales w) ->
   getSale w' (Sale.id sale) = Some sale) /\
  (forall s, getSale w (Sale.id sale) = Some s ->
             getSale w' (Sale.id sale) = Some s).
Proof.
  unfold call. rewrite createSale_eq.
  destruct (mapSaleItems w e 0 itemsData) as [saleItems |]; [| discriminate].
  cbv zeta.
  destruct (updateInventory w soldBy _ e (S (length itemsData)) saleItems w)
    as [[|] w'']; cbn [fst snd]; [| discriminate].
  intros [= <- <-]. unfold getSale. cbn [sales].
  set (sale := buildSale _ _ _ _ _ _ _ _).
  split; [reflexivity |]. split; [| split].
  - intros id Hid. rewrite find_app_l.
    destruct (List.find _ (sales w)); [reflexivity |].
    cbn [List.find]. apply not_eq_sym, String.eqb_neq in Hid.
    rewrite Hid. reflexivity.
  - intros Hfresh. rewrite find_app_l, (find_none_sale_ids _ _ Hfresh).
    cbn [List.find]. rewrite String.eqb_refl. reflexivity.
  - intros s Hs. rewrite find_app_l, Hs. reflexivity.
Qed.

Lemma getSale_after_createSale_witness :
  exists sale,
    fst sale_two_items = Some sale /\
    getSale (snd sale_two_items) "c" = Some sale.
Proof.
  destruct sale_two_items as [[sale |] w'] eqn:E; [| discriminate E].
  exists sale. split; [reflexivity |].
  destruct (getSale_after_createSale demo_world _ _ _ _ _ _ _ _ E)
    as (Hid & _ & Hfind & _).
  cbn [length] in Hid. change (fresh_id sample_env 2) with "c" in Hid.
  rewrite <- Hid. apply Hfind. constructor.
Defined.

(** * The screens *)

(** ** The cart of the new sale *)

Lemma updateCartItemQuantity_cons productId newQuantity item rest :
  updateCartItemQuantity productId newQuantity (item :: rest)
  = (if (CartItem.productId item =? productId)%string then
       if Qlt_bool 0 newQuantity
          && Qle_bool newQuantity (CartItem.availableStock item)
       then [CartItem.with_quantity item newQuantity
               (newQuantity * CartItem.pricePerUnit item
                - or_zero (CartItem.discount item))]
       else if Qeq_bool newQuantity 0 then [] else [item]
     else [item])
    ++ updateCartItemQuantity productId newQuantity rest.
Proof.
  unfold updateCartItemQuantity. cbn [map].
  destruct (CartItem.productId item =? productId)%string; [| reflexivity].
  destruct (Qlt_bool 0 newQuantity
            && Qle_bool newQuantity (CartItem.availableStock item));
    [reflexivity |].
  destruct (Qeq_bool newQuantity 0); reflexivity.
Qed.

Lemma updateCartItemQuantity_ids productId newQuantity cart :
  map CartItem.productId (updateCartItemQuantity productId newQuantity cart)
    `sublist_of` map CartItem.productId cart.
Proof.
  induction cart as [| item rest IH]; [constructor |].
  rewrite updateCartItemQuantity_cons.
  destruct (CartItem.productId item =? productId)%string;
    [| apply sublist_skip; exact IH].
  destruct (Qlt_bool 0 newQuantity
            && Qle_bool newQuantity (CartItem.availableStock item));
    [apply sublist_skip; exact IH |].
  destruct (Qeq_bool newQuantity 0);
    [apply sublist_cons; exact IH | apply sublist_skip; exact IH].
Qed.

Lemma updateCartItemQuantity_items_ok productId newQuantity cart :
  Forall cart_item_ok cart ->
  Forall cart_item_ok (updateCartItemQuantity productId newQuantity cart).
Proof.
  induction 1 as [| item rest Hitem _ IH]; [constructor |].
  rewrite updateCartItemQuantity_cons.
  destruct (CartItem.productId item =? productId)%string;
    [| constructor; assumption].
  destruct (Qlt_bool 0 newQuantity) eqn:Hpos; cbn [andb].
  - destruct (Qle_bool newQuantity (CartItem.availableStock item)) eqn:Hle.
    + constructor; [| exact IH].
      apply Qlt_bool_iff in Hpos. apply Qle_bool_iff in Hle.
      split; [exact Hpos |]. split; [exact Hle |]. simpl. reflexivity.
    + destruct (Qeq_bool newQuantity 0); [exact IH | constructor; assumption].
  - destruct (Qeq_bool newQuantity 0); [exact IH | constructor; assumption].
Qed.

Lemma handleRemoveItem_ids productId cart :
  map CartItem.productId (handleRemoveItem productId cart)
    `sublist_of` map CartItem.productId cart.
Proof.
  unfold handleRemoveItem.
  induction cart as [| item rest IH]; [constructor |].
  cbn [List.filter]. destruct (negb _); cbn [map];
    [apply sublist_skip | apply sublist_cons]; exact IH.
Qed.

Lemma find_cart_none productId cart :
  List.find (fun item => CartItem.productId item =? productId)%string cart = None ->
  productId ∉ map CartItem.productId cart.
Proof.
  induction cart as [| item rest IH]; cbn [List.find map].
  - intros _. apply not_elem_of_nil.
  - destruct (CartItem.productId item =? productId)%string eqn:E; [discriminate |].
    intros H. apply not_elem_of_cons. split; [| apply IH; exact H].
    apply String.eqb_neq in E. congruence.
Qed.

(** X13.  The three handlers of the cart keep what the screen relies on:
    every item has a positive quantity within the stock recorded when it
    was added and the subtotal [quantity * pricePerUnit - discount], and
    no two items are for the same product.  For [handleAddProductToCart]
    the product must have a stock of at least one; the screen offers the
    products with [stockLevel > 0]. *)
Theorem cart_handlers_keep_cart_ok :
  cart_ok [] /\
  (forall cart product currentCart,
      cart_ok cart -> cart_ok currentCart ->
      1 <= Product.stockLevel product ->
      cart_ok (handleAddProductToCart cart product currentCart)) /\
  (forall productId newQuantity currentCart,
      cart_ok currentCart ->
      cart_ok (updateCartItemQuantity productId newQuantity currentCart)) /\
  (forall productId currentCart,
      cart_ok currentCart -> cart_ok (handleRemoveItem productId currentCart)).
Proof.
  assert (Hupd : forall productId newQuantity currentCart,
             cart_ok currentCart ->
             cart_ok (updateCartItemQuantity productId newQuantity currentCart)).
  { intros productId newQuantity currentCart [Hitems Hids]. split.
    - apply updateCartItemQuantity_items_ok. exact Hitems.
    - eapply sublist_NoDup; [exact Hids | apply updateCartItemQuantity_ids]. }
  split; [split; constructor |].
  split; [| split; [exact Hupd |]].
  - intros cart product currentCart [Hitems Hids] Hcur Hstock.
    unfold handleAddProductToCart.
    destruct (List.find _ cart) as [existing |] eqn:Hfind.
    + destruct (Qlt_bool _ _); [apply Hupd; exact Hcur | exact Hcur].
    + split.
      * apply Forall_app. split; [exact Hitems |].
        constructor; [| constructor].
        split; [simpl; lra |]. split; [exact Hstock |]. simpl. ring.
      * rewrite map_app. apply NoDup_app.
        split; [exact Hids |]. split; [| apply NoDup_singleton].
        intros x Hx Hin. cbn [map newCartItem CartItem.productId] in Hin.
        apply list_elem_of_singleton in Hin. subst x.
        exact (find_cart_none _ _ Hfind Hx).
  - intros productId currentCart [Hitems Hids]. split.
    + unfold handleRemoveItem.
      apply Forall_forall. intros item Hin.
      apply list_elem_of_In, filter_In in Hin. destruct Hin as [Hin _].
      rewrite Forall_forall in Hitems. apply Hitems, list_elem_of_In, Hin.
    + eapply sublist_NoDup; [exact Hids | apply handleRemoveItem_ids].
Qed.

Lemma cart_handlers_keep_cart_ok_witness :
  let product :=
    Product.mk "1" "T-Shirt" None None 1500 1000 25 10 5 "Clothing" None 0%Z 0%Z in
  let cart1 := handleAddProductToCart [] product [] in
  let cart2 := handleAddProductToCart cart1 product cart1 in
  cart_ok cart2 /\
  map (fun i => (CartItem.quantity i, CartItem.subtotal i)) cart2
    = [(1 + 1, (1 + 1) * 1500 - 0)].
Proof.
  cbv zeta.
  destruct cart_handlers_keep_cart_ok as (Hnil & Hadd & _).
  assert (Hstock : 1 <= 25) by (unfold Qle; simpl; lia).
  split; [| vm_compute; reflexivity].
  apply Hadd; [| | exact Hstock]; apply Hadd; assumption.
Defined.

(** ** Finalising a sale *)

Lemma handleFinalizeSale_eq r user cart amountPaid customerName customerPhone
    notes e w :
  handleFinalizeSale r user cart amountPaid customerName customerPhone notes e w
  = match user with
    | None => (NotAuthenticated, w)
    | Some u =>
      if (length cart =? 0)%nat then (CartEmpty, w)
      else if Qlt_bool (or_zero amountPaid) 0 then (PaidNegative, w)
      else if Qlt_bool (cartTotal cart) (or_zero amountPaid)
           then (PaidExceedsTotal, w)
      else
        let res :=
          createSale r (cartSaleItems cart) (or_zero amountPaid) (User.id u)
            (if truthy customerName
             then Some {| Customer.name := customerName;
                          Customer.phone := Some customerPhone;
                          Customer.email := None |}
             else None)
            (Some notes) e w in
        (match fst res with Some _ => SaleRecorded | None => SaleFailed end,
         snd res)
    end.
Proof.
  unfold handleFinalizeSale.
  destruct user as [u |]; [| reflexivity].
  destruct (length cart =? 0)%nat; [reflexivity |].
  cbv zeta.
  destruct (Qlt_bool (or_zero amountPaid) 0); [reflexivity |].
  destruct (Qlt_bool (cartTotal cart) (or_zero amountPaid)); [reflexivity |].
  unfold bind.
  destruct (createSale r _ _ _ _ _ e w) as [[sale |] w']; reflexivity.
Qed.




Lemma cart_in_stock_can_sell w cart :
  Forall cart_item_ok cart -> Forall (cart_item_in_stock w) cart ->
  ~ Exists (cannot_sell w) (cartSaleItems cart).
Proof.
  intros Hok Hin. induction cart as [| item rest IH]; intros Hex.
  - inversion Hex.
  - apply Forall_cons in Hok, Hin.
    destruct Hok as [(_ & Hle & _) Hok], Hin as [(p & Hfind & Havail) Hin].
    cbn [cartSaleItems map] in Hex. apply Exists_cons in Hex.
    destruct Hex as [Hcannot | Hex]; [| exact (IH Hok Hin Hex)].
    unfold cannot_sell in Hcannot.
    cbn [SaleItemData.productId SaleItemData.quantity] in Hcannot.
    rewrite Hfind in Hcannot. lra.
Qed.

(** X15.  A cart of the screen whose products are still in the list with
    at least the stock that the cart recorded is never refused: for a
    signed-in user, a cart that is not empty and an amount paid between
    zero and the total of the cart, [handleFinalizeSale] records the
    sale. *)
Theorem handleFinalizeSale_in_stock w u cart amountPaid customerName
    customerPhone notes e :
  cart <> [] ->
  Forall cart_item_ok cart ->
  Forall (cart_item_in_stock w) cart ->
  0 <= or_zero amountPaid ->
  or_zero amountPaid <= cartTotal cart ->
  fst (call (fun r => handleFinalizeSale r (Some u) cart amountPaid customerName
                        customerPhone notes e) w) = SaleRecorded.
Proof.
  intros Hcart Hok Hin Hneg Hover.
  unfold call. rewrite handleFinalizeSale_eq.
  destruct cart as [| c rest]; [contradiction |]. cbn [length Nat.eqb].
  apply Qlt_bool_false in Hneg, Hover. rewrite Hneg, Hover.
  cbv zeta. cbn [fst].
  match goal with
  | |- context [createSale w ?items ?paid ?seller ?cust ?nts e w] =>
      pose proof (createSale_None_iff w items paid seller cust nts e w) as Hiff;
      destruct (fst (createSale w items paid seller cust nts e w))
  end; [reflexivity |].
  exfalso. apply (cart_in_stock_can_sell w (c :: rest) Hok Hin).
  apply Hiff. reflexivity.
Qed.

Lemma handleFinalizeSale_in_stock_witness :
  let admin :=
    User.mk "1" "admin" "admin123" "Admin User" ADMIN (DEFAULT_PERMISSIONS ADMIN)
      0%Z 0%Z in
  let product :=
    Product.mk "3" "Sneakers" None None 4500 3000 8 10 5 "Footwear" None 0%Z 0%Z in
  fst (call (fun r => handleFinalizeSale r (Some admin)
                        (handleAddProductToCart [] product []) None "Ada" "" ""
                        sample_env) demo_world) = SaleRecorded.
Proof.
  cbv zeta. apply handleFinalizeSale_in_stock.
  - discriminate.
  - repeat constructor; simpl; try lra; unfold Qle; simpl; lia.
  - constructor; [| constructor]. eexists. split; [reflexivity |].
    simpl. unfold Qle; simpl; lia.
  - simpl. lra.
  - vm_compute. discriminate.
Defined.

(** ** The stock adjustment of the edit screen *)






(** ** A payment from the sale screen *)

Lemma getSale_findIndex w id s :
  getSale w id = Some s ->
  exists i,
    findIndex (fun s => Sale.id s =? id)%string (sales w) = Some i /\
    sales w !! i = Some s.
Proof.
  unfold getSale. rewrite find_findIndex.
  destruct (findIndex _ (sales w)) as [i |]; [| discriminate].
  intros H. exists i. split; [reflexivity | exact H].
Qed.

(** X17.  [handleAddPayment] changes nothing unless it records the
    payment.  When the sale that the screen holds is the one that
    [getSale] returns for its id, the handler never ends in "Failed to
    record payment.", and for a signed-in user and an amount that is
    positive and at most the balance it records the payment: one credit
    payment with that amount, the id of the sale and the id of the user
    is appended. *)
Theorem handleAddPayment_current_sale w sale user paymentAmount paymentMethod
    paymentNotes e :
  let res :=
    call (fun r => handleAddPayment r sale user paymentAmount paymentMethod
                     paymentNotes e) w in
  (fst res <> PaymentRecorded -> snd res = w) /\
  (forall s, sale = Some s -> getSale w (Sale.id s) = Some s ->
             fst res <> PaymentFailed) /\
  (forall s u amount,
      sale = Some s -> user = Some u -> paymentAmount = Some amount ->
      getSale w (Sale.id s) = Some s ->
      0 < amount -> amount <= Sale.balance s ->
      fst res = PaymentRecorded /\
      exists payment,
        creditPayments (snd res) = creditPayments w ++ [payment] /\
        CreditPayment.amount payment = amount /\
        CreditPayment.saleId payment = Sale.id s /\
        CreditPayment.receivedBy payment = User.id u).
Proof.
  cbv zeta. unfold call, handleAddPayment.
  destruct sale as [s |];
    [| cbn; split; [reflexivity |]; split; [discriminate | intros ? ? ? [=]]].
  destruct user as [u |];
    [| cbn; split; [reflexivity |]; split; [discriminate | intros ? ? ? _ [=]]].
  destruct paymentAmount as [amount |];
    [| cbn; split; [reflexivity |]; split; [discriminate | intros ? ? ? _ _ [=]]].
  destruct (Qle_bool amount 0) eqn:Hle.
  { cbn. split; [reflexivity |]. split; [discriminate |].
    intros ? ? ? _ _ [= <-] _ Hpos _. apply Qle_bool_iff in Hle. lra. }
  destruct (Qlt_bool (Sale.balance s) amount) eqn:Hlt.
  { cbn. split; [reflexivity |]. split; [discriminate |].
    intros ? ? ? [= <-] _ [= <-] _ _ Hbal. apply Qlt_bool_iff in Hlt. lra. }
  unfold bind. rewrite addCreditPayment_eq.
  destruct (findIndex _ (sales w)) as [i |] eqn:Hi.
  - destruct (sales w !! i) as [s' |] eqn:Hs'.
    + destruct (Qlt_bool (Sale.balance s') amount) eqn:Hlt'; rewrite Hle;
        cbn [orb fst snd].
      * split; [reflexivity |]. split.
        -- intros s0 [= <-] Hget. apply getSale_findIndex in Hget.
           destruct Hget as (j & Hj & Hsj). rewrite Hi in Hj. injection Hj as <-.
           rewrite Hs' in Hsj. injection Hsj as <-. congruence.
        -- intros s0 u0 a0 [= <-] _ _ Hget. apply getSale_findIndex in Hget.
           destruct Hget as (j & Hj & Hsj). rewrite Hi in Hj. injection Hj as <-.
           rewrite Hs' in Hsj. injection Hsj as <-. congruence.
      * split; [intros H; contradiction |]. split; [discriminate |].
        intros s0 u0 a0 [= <-] [= <-] [= <-] _ _ _.
        split; [reflexivity |].
        eexists. cbn [creditPayments]. repeat split; reflexivity.
    + apply findIndex_Some in Hi. destruct Hi as (x & Hx & _). congruence.
  - cbn [fst snd]. split; [reflexivity |]. split.
    + intros s0 [= <-] Hget. apply getSale_findIndex in Hget.
      destruct Hget as (j & Hj & _). congruence.
    + intros s0 u0 a0 [= <-] _ _ Hget. apply getSale_findIndex in Hget.
      destruct Hget as (j & Hj & _). congruence.
Qed.

Lemma handleAddPayment_current_sale_witness :
  let admin :=
    User.mk "1" "admin" "admin123" "Admin User" ADMIN (DEFAULT_PERMISSIONS ADMIN)
      0%Z 0%Z in
  exists s,
    getSale (snd sale_two_items) "c" = Some s /\
    fst (call (fun r => handleAddPayment r (Some s) (Some admin) (Some 500)
                          "Cash" "" sample_env) (snd sale_two_items))
      = PaymentRecorded.
Proof.
  cbv zeta.
  destruct (getSale (snd sale_two_items) "c") as [s |] eqn:Hget;
    [| vm_compute in Hget; discriminate Hget].
  exists s. split; [reflexivity |].
  eapply (proj2 (proj2 (handleAddPayment_current_sale _ _ _ _ _ _ _)));
    try reflexivity.
  - vm_compute in Hget. injection Hget as <-. vm_compute. reflexivity.
  - vm_compute in Hget. injection Hget as <-. vm_compute. discriminate.
Defined.

(** * Sessions *)

(** X19.  For whoever [login] signs in, the two gates on the reports
    agree: the tab is shown exactly when the screen does not turn the
    user away, and that is exactly for "admin".  The user is then
    authenticated, and after [logout] nobody is, whether or not the
    storage could be cleared. *)
Theorem login_reports_gates boot username password storageOk user :
  let res := login boot username password storageOk user in
  fst res = true ->
  isAuthenticated (snd res) = true /\
  reportsTabShown (snd res) = negb (reportsDenied (snd res)) /\
  (reportsTabShown (snd res) = true <-> username = "admin") /\
  (forall ok, isAuthenticated (logout ok (snd res)) = false /\
              reportsTabShown (logout ok (snd res)) = false /\
              reportsDenied (logout ok (snd res)) = true).
Proof.
  cbv zeta. unfold login. rewrite DEMO_USERS_find.
  destruct ((username =? "admin") && (password =? "admin123"))%string eqn:Ea;
    [| destruct ((username =? "sales") && (password =? "sales123"))%string eqn:Es].
  - apply andb_true_iff in Ea. destruct Ea as [Eu _].
    apply String.eqb_eq in Eu. subst. cbn [nth_error DEMO_USERS].
    destruct storageOk; cbn [fst snd]; [intros _ | discriminate].
    split; [reflexivity |]. split; [reflexivity |].
    split; [split; reflexivity |]. intros []; repeat split.
  - apply andb_true_iff in Es. destruct Es as [Eu _].
    apply String.eqb_eq in Eu. subst. cbn [nth_error DEMO_USERS].
    destruct storageOk; cbn [fst snd]; [intros _ | discriminate].
    split; [reflexivity |]. split; [reflexivity |].
    split; [split; discriminate |]. intros []; repeat split.
  - cbn [fst]. discriminate.
Qed.

Lemma login_reports_gates_witness :
  reportsTabShown (snd (login 0%Z "sales" "sales123" true None)) = false /\
  reportsDenied (snd (login 0%Z "sales" "sales123" true None)) = true.
Proof.
  destruct (login_reports_gates 0%Z "sales" "sales123" true None eq_refl)
    as (_ & Hagree & Hadmin & _).
  destruct (reportsTabShown (snd (login 0%Z "sales" "sales123" true None))) eqn:E.
  - destruct Hadmin as [Hadmin _]. discriminate (Hadmin eq_refl).
  - split; [reflexivity |].
    destruct (reportsDenied (snd (login 0%Z "sales" "sales123" true None)));
      [reflexivity | discriminate Hagree].
Defined.

(** * Sales that are refused at once *)

(** X21.  A sale that names a product that is not in the list, or whose
    first item asks for more than the stock of its product, is refused
    before anything is written: [createSale] returns [null] and the
    products, the log, the sales and the credit payments are as
    before. *)
Theorem createSale_refused_at_once w itemsData amountPaid soldBy customer notes e :
  (Exists (fun d =>
             List.find (fun p => Product.id p =? SaleItemData.productId d)%string
                       (products w) = None) itemsData ->
   call (fun r => createSale r itemsData amountPaid soldBy customer notes e) w
     = (None, w)) /\
  (forall d rest,
      itemsData = d :: rest -> cannot_sell w d ->
      call (fun r => createSale r itemsData amountPaid soldBy customer notes e) w
        = (None, w)).
Proof.
  unfold call. split.
  - intros Hex. rewrite createSale_eq.
    apply (mapSaleItems_None w e 0) in Hex. rewrite Hex. reflexivity.
  - intros d rest -> Hcannot. rewrite createSale_eq.
    destruct (mapSaleItems w e 0 (d :: rest)) as [saleItems |] eqn:Hmap;
      [| reflexivity].
    cbv zeta.
    apply mapSaleItems_built in Hmap.
    inversion Hmap as [| ? item ? items (Hp & Hq & _) _]; subst.
    rewrite updateInventory_cons. cbv zeta.
    apply canRemove_false in Hcannot. rewrite <- Hp, <- Hq in Hcannot.
    set (reason := String.append "Sale: " _).
    pose proof (removeStock_fst w (SaleItem.productId item)
                  (SaleItem.quantity item) soldBy (Some reason)
                  (env_shift (S (length (d :: rest))) e) w) as Hfst.
    pose proof (removeStock_eq w (SaleItem.productId item)
                  (SaleItem.quantity item) soldBy (Some reason)
                  (env_shift (S (length (d :: rest))) e) w) as Heq.
    destruct (removeStock w (SaleItem.productId item) (SaleItem.quantity item)
                soldBy (Some reason) (env_shift (S (length (d :: rest))) e) w)
      as [ok w1].
    cbn [fst] in Hfst. rewrite Hcannot in Hfst. subst ok. cbn [fst snd].
    revert Heq. repeat case_match; intros [= <-]; reflexivity.
Qed.

Lemma createSale_refused_at_once_witness :
  call (fun r => createSale r [sample_item "3" 9 4500; sample_item "1" 1 1500]
                   0 "2" None None sample_env) demo_world = (None, demo_world) /\
  call (fun r => createSale r [sample_item "1" 1 1500; sample_item "7" 1 10]
                   0 "2" None None sample_env) demo_world = (None, demo_world).
Proof.
  split.
  - eapply (proj2 (createSale_refused_at_once _ _ _ _ _ _ _)); [reflexivity |].
    unfold cannot_sell. simpl. unfold Qlt. simpl. lia.
  - apply (proj1 (createSale_refused_at_once _ _ _ _ _ _ _)).
    apply Exists_cons_tl, Exists_cons_hd. reflexivity.
Defined.

(** * Low stock *)




(** * Doubles *)

Section Binary64.
Local Open Scope Z_scope.

(** ** Digits, shifts and rounding *)

Lemma digits2_pos_bounds (m : positive) :
  (2 ^ (Zpos (digits2_pos m) - 1) <= Zpos m < 2 ^ Zpos (digits2_pos m))%Z.
Proof.
  induction m as [m IH | m IH |]; cbn [digits2_pos].
  - rewrite Pos2Z.inj_succ.
    replace (Z.succ (Zpos (digits2_pos m)) - 1)%Z
      with (Z.succ (Zpos (digits2_pos m) - 1)) by lia.
    rewrite !Z.pow_succ_r by lia. lia.
  - rewrite Pos2Z.inj_succ.
    replace (Z.succ (Zpos (digits2_pos m)) - 1)%Z
      with (Z.succ (Zpos (digits2_pos m) - 1)) by lia.
    rewrite !Z.pow_succ_r by lia. lia.
  - simpl. lia.
Qed.

Lemma iter_xO_value (m d : positive) :
  Zpos (Pos.iter xO m d) = (Zpos m * 2 ^ Zpos d)%Z.
Proof.
  induction d as [| d IH] using Pos.peano_ind.
  - simpl. lia.
  - rewrite Pos.iter_succ, Pos2Z.inj_succ, Z.pow_succ_r by lia.
    rewrite Pos2Z.inj_xO, IH. lia.
Qed.

(** [shl_align] keeps the value: the mantissa at the lower exponent. *)
Lemma shl_align_value (m : positive) (e e' : Z) :
  (e' <= e)%Z ->
  Zpos (fst (shl_align m e e')) = (Zpos m * 2 ^ (e - e'))%Z.
Proof.
  intros Hle. unfold shl_align.
  destruct (e' - e)%Z as [| d | d] eqn:Hd; cbn [fst].
  - replace (e - e')%Z with 0%Z by lia. simpl. lia.
  - lia.
  - rewrite iter_xO_value. f_equal. f_equal. lia.
Qed.

Lemma shr_1_nonneg mrs : (0 <= shr_m mrs)%Z -> (0 <= shr_m (shr_1 mrs))%Z.
Proof.
  destruct mrs as [m r s]. cbn [shr_m]. intros H.
  destruct m as [| [p | p |] | p]; cbn; lia.
Qed.

Lemma iter_pos_shr_1_nonneg p mrs :
  (0 <= shr_m mrs)%Z -> (0 <= shr_m (SpecFloat.iter_pos shr_1 p mrs))%Z.
Proof.
  revert mrs. induction p as [p IH | p IH |]; intros mrs H; cbn [SpecFloat.iter_pos].
  - apply IH, IH, shr_1_nonneg, H.
  - apply IH, IH, H.
  - apply shr_1_nonneg, H.
Qed.

Lemma shr_fexp_nonneg m e l :
  (0 <= m)%Z -> (0 <= shr_m (fst (shr_fexp Double.prec Double.emax m e l)))%Z.
Proof.
  intros H. unfold shr_fexp, shr.
  assert (H0 : (0 <= shr_m (shr_record_of_loc m l))%Z).
  { destruct l as [| []]; exact H. }
  destruct (fexp Double.prec Double.emax (Zdigits2 m + e) - e)%Z as [| p | p];
    cbn [fst]; [exact H0 | | exact H0].
  apply iter_pos_shr_1_nonneg, H0.
Qed.

Lemma round_nearest_even_nonneg m l :
  (0 <= m)%Z -> (0 <= round_nearest_even m l)%Z.
Proof.
  intros H. destruct l as [| []]; cbn; try lia.
  destruct (Z.even m); lia.
Qed.

(** Rounding a mantissa that is not negative, with the sign bit clear,
    gives a double that is not negative. *)
Lemma binary_round_aux_nonneg m e l :
  (0 <= m)%Z ->
  Double.nonneg (binary_round_aux Double.prec Double.emax false m e l).
Proof.
  intros H. unfold binary_round_aux.
  pose proof (shr_fexp_nonneg m e l H) as H1.
  destruct (shr_fexp Double.prec Double.emax m e l) as [mrs' e'].
  cbn [fst] in H1.
  pose proof (shr_fexp_nonneg _ e' loc_Exact
                (round_nearest_even_nonneg _ (loc_of_shr_record mrs') H1)) as H2.
  destruct (shr_fexp Double.prec Double.emax _ e' loc_Exact) as [mrs'' e''].
  cbn [fst] in H2.
  destruct (shr_m mrs'') as [| p | p]; [reflexivity | | lia].
  destruct (e'' <=? Double.emax - Double.prec)%Z; reflexivity.
Qed.

Lemma binary_normalize_nonneg m e :
  (0 <= m)%Z ->
  Double.nonneg (binary_normalize Double.prec Double.emax m e false).
Proof.
  intros H. destruct m as [| p | p]; [reflexivity | | lia].
  cbn [binary_normalize]. unfold binary_round.
  destruct (shl_align p e _) as [mz ez].
  apply binary_round_aux_nonneg. lia.
Qed.

(** Of two doubles of the same sign, the one with the larger exponent
    has the larger magnitude. *)
Lemma bounded_exponent_gt mx ex my ey :
  bounded Double.prec Double.emax mx ex = true ->
  bounded Double.prec Double.emax my ey = true ->
  (ey < ex)%Z ->
  (Zpos my < Zpos mx * 2 ^ (ex - ey))%Z.
Proof.
  unfold bounded, canonical_mantissa, fexp, emin, Double.prec, Double.emax.
  intros Hx Hy Hlt.
  apply andb_true_iff in Hx, Hy. destruct Hx as [Hx _], Hy as [Hy _].
  apply Z.eqb_eq in Hx, Hy.
  pose proof (digits2_pos_bounds mx) as [Hmx _].
  pose proof (digits2_pos_bounds my) as [_ Hmy].
  assert (Hdx : Zpos (digits2_pos mx) = 53%Z) by lia.
  assert (Hdy : (Zpos (digits2_pos my) <= 53)%Z) by lia.
  rewrite Hdx in Hmx.
  assert (Hpy : (2 ^ Zpos (digits2_pos my) <= 2 ^ 53)%Z)
    by (apply Z.pow_le_mono_r; lia).
  assert (Hpe : (2 ^ 1 <= 2 ^ (ex - ey))%Z) by (apply Z.pow_le_mono_r; lia).
  change (2 ^ (53 - 1))%Z with 4503599627370496%Z in Hmx.
  change (2 ^ 53)%Z with 9007199254740992%Z in Hpy.
  change (2 ^ 1)%Z with 2%Z in Hpe.
  nia.
Qed.

(** ** The results of [+] and [-] are doubles *)

(** The number of binary digits, from bounds. *)
Lemma Zdigits2_bounds (m : Z) :
  (0 < m)%Z -> (0 < Zdigits2 m /\ 2 ^ (Zdigits2 m - 1) <= m < 2 ^ Zdigits2 m)%Z.
Proof.
  destruct m as [| p | p]; try lia. intros _. cbn [Zdigits2].
  split; [lia | apply digits2_pos_bounds].
Qed.

Lemma Zdigits2_unique (m k : Z) :
  (2 ^ (k - 1) <= m < 2 ^ k)%Z -> (0 < k)%Z -> Zdigits2 m = k.
Proof.
  intros [Hlo Hhi] Hk.
  assert (Hm : (0 < m)%Z).
  { assert (0 < 2 ^ (k - 1))%Z by (apply Z.pow_pos_nonneg; lia). lia. }
  destruct (Zdigits2_bounds m Hm) as (Hd & Hdlo & Hdhi).
  destruct (Z.lt_trichotomy (Zdigits2 m) k) as [H | [H | H]]; [| exact H |].
  - assert (2 ^ Zdigits2 m <= 2 ^ (k - 1))%Z by (apply Z.pow_le_mono_r; lia).
    lia.
  - assert (2 ^ k <= 2 ^ (Zdigits2 m - 1))%Z by (apply Z.pow_le_mono_r; lia).
    lia.
Qed.

Lemma Zdigits2_nonneg (m : Z) : (0 <= Zdigits2 m)%Z.
Proof. destruct m; cbn; lia. Qed.

Lemma Zdigits2_mono (a b : Z) :
  (0 <= a <= b)%Z -> (Zdigits2 a <= Zdigits2 b)%Z.
Proof.
  intros [Ha Hab].
  destruct (Z.eq_dec a 0) as [-> | Hne]; [apply Zdigits2_nonneg |].
  destruct (Zdigits2_bounds a ltac:(lia)) as (_ & Halo & _).
  destruct (Zdigits2_bounds b ltac:(lia)) as (_ & _ & Hbhi).
  destruct (Z_lt_le_dec (Zdigits2 b) (Zdigits2 a)) as [H | H]; [| exact H].
  assert (2 ^ Zdigits2 b <= 2 ^ (Zdigits2 a - 1))%Z
    by (apply Z.pow_le_mono_r; [lia | lia]).
  lia.
Qed.

(** [shr_1] halves the mantissa. *)
Lemma shr_1_value mrs :
  (0 <= shr_m mrs)%Z -> shr_m (shr_1 mrs) = (shr_m mrs / 2)%Z.
Proof.
  destruct mrs as [m r s]. cbn [shr_m]. intros H.
  destruct m as [| [p | p |] | p]; try lia; cbn [shr_1 shr_m].
  - reflexivity.
  - apply Z.div_unique with (r := 1%Z); lia.
  - apply Z.div_unique with (r := 0%Z); lia.
  - reflexivity.
Qed.

Lemma iter_pos_shr_1_value p mrs :
  (0 <= shr_m mrs)%Z ->
  shr_m (SpecFloat.iter_pos shr_1 p mrs) = (shr_m mrs / 2 ^ Zpos p)%Z.
Proof.
  revert mrs. induction p as [p IH | p IH |]; intros mrs H;
    cbn [SpecFloat.iter_pos].
  - rewrite IH by (apply iter_pos_shr_1_nonneg, shr_1_nonneg, H).
    rewrite IH by (apply shr_1_nonneg, H).
    rewrite shr_1_value by exact H.
    assert (Hp : (0 < 2 ^ Zpos p)%Z) by (apply Z.pow_pos_nonneg; lia).
    rewrite !Z.div_div by lia.
    f_equal.
    replace (Zpos p~1) with (1 + Zpos p + Zpos p)%Z by lia.
    rewrite !Z.pow_add_r by lia. change (2 ^ 1)%Z with 2%Z. lia.
  - rewrite IH by (apply iter_pos_shr_1_nonneg, H).
    rewrite IH by exact H.
    assert (Hp : (0 < 2 ^ Zpos p)%Z) by (apply Z.pow_pos_nonneg; lia).
    rewrite !Z.div_div by lia.
    f_equal.
    replace (Zpos p~0) with (Zpos p + Zpos p)%Z by lia.
    rewrite !Z.pow_add_r by lia. lia.
  - rewrite shr_1_value by exact H. reflexivity.
Qed.

(** Dropping [n] low bits drops [n] digits. *)
Lemma Zdigits2_shift (m n : Z) :
  (0 < m)%Z -> (0 <= n < Zdigits2 m)%Z ->
  (0 < m / 2 ^ n)%Z /\ Zdigits2 (m / 2 ^ n) = (Zdigits2 m - n)%Z.
Proof.
  intros Hm [Hn Hnd].
  destruct (Zdigits2_bounds m Hm) as (Hd & Hlo & Hhi).
  assert (Hp : (0 < 2 ^ n)%Z) by (apply Z.pow_pos_nonneg; lia).
  assert (Hlo' : (2 ^ (Zdigits2 m - n - 1) <= m / 2 ^ n)%Z).
  { apply Z.div_le_lower_bound; [exact Hp |].
    rewrite <- Z.pow_add_r by lia.
    replace (n + (Zdigits2 m - n - 1))%Z with (Zdigits2 m - 1)%Z by lia.
    exact Hlo. }
  assert (Hhi' : (m / 2 ^ n < 2 ^ (Zdigits2 m - n))%Z).
  { apply Z.div_lt_upper_bound; [exact Hp |].
    rewrite <- Z.pow_add_r by lia.
    replace (n + (Zdigits2 m - n))%Z with (Zdigits2 m) by lia.
    exact Hhi. }
  assert (0 < 2 ^ (Zdigits2 m - n - 1))%Z by (apply Z.pow_pos_nonneg; lia).
  split; [lia |].
  apply Zdigits2_unique; [| lia].
  replace (Zdigits2 m - n - 1)%Z with (Zdigits2 m - n - 1)%Z in Hlo' by lia.
  split; [exact Hlo' | exact Hhi'].
Qed.

Lemma Zdigits2_shift_out (m n : Z) :
  (0 < m)%Z -> (Zdigits2 m <= n)%Z -> (m / 2 ^ n = 0)%Z.
Proof.
  intros Hm Hn.
  destruct (Zdigits2_bounds m Hm) as (Hd & _ & Hhi).
  assert (2 ^ Zdigits2 m <= 2 ^ n)%Z by (apply Z.pow_le_mono_r; lia).
  apply Z.div_small. lia.
Qed.

(** What [shr_fexp] returns when it has no bit to add. *)
Lemma shr_fexp_value m e l :
  (0 <= m)%Z -> (e <= fexp Double.prec Double.emax (Zdigits2 m + e))%Z ->
  snd (shr_fexp Double.prec Double.emax m e l)
    = fexp Double.prec Double.emax (Zdigits2 m + e) /\
  shr_m (fst (shr_fexp Double.prec Double.emax m e l))
    = (m / 2 ^ (fexp Double.prec Double.emax (Zdigits2 m + e) - e))%Z.
Proof.
  intros Hm Hn. unfold shr_fexp, shr.
  assert (H0 : shr_m (shr_record_of_loc m l) = m) by (destruct l as [| []]; reflexivity).
  destruct (fexp Double.prec Double.emax (Zdigits2 m + e) - e)%Z as [| p | p] eqn:Hd;
    cbn [fst snd].
  - split; [lia |]. rewrite H0. cbn. rewrite Z.div_1_r. reflexivity.
  - split; [lia |]. rewrite iter_pos_shr_1_value by (rewrite H0; exact Hm).
    rewrite H0. reflexivity.
  - lia.
Qed.

(** After [shr_fexp], a mantissa that is not zero is canonical, and a
    mantissa that is zero sits at the least exponent. *)
Lemma shr_fexp_canonical m e l :
  (0 <= m)%Z -> (e <= fexp Double.prec Double.emax (Zdigits2 m + e))%Z ->
  let m' := shr_m (fst (shr_fexp Double.prec Double.emax m e l)) in
  let e' := snd (shr_fexp Double.prec Double.emax m e l) in
  (0 <= m')%Z /\
  ((0 < m')%Z -> fexp Double.prec Double.emax (Zdigits2 m' + e') = e') /\
  ((0 < m)%Z -> m' = 0%Z -> e' = emin Double.prec Double.emax).
Proof.
  intros Hm Hn. cbv zeta.
  destruct (shr_fexp_value m e l Hm Hn) as [He Hv]. rewrite He, Hv.
  set (n := (fexp Double.prec Double.emax (Zdigits2 m + e) - e)%Z) in *.
  assert (Hp : (0 < 2 ^ n)%Z) by (apply Z.pow_pos_nonneg; lia).
  split; [apply Z.div_pos; lia |].
  destruct (Z.eq_dec m 0) as [-> | Hne].
  { rewrite Z.div_0_l by lia. split; intros; lia. }
  destruct (Z_lt_le_dec n (Zdigits2 m)) as [Hlt | Hge].
  - destruct (Zdigits2_shift m n ltac:(lia) ltac:(lia)) as [Hpos Hdig].
    split; [| intros; lia].
    intros _. rewrite Hdig. f_equal. lia.
  - rewrite (Zdigits2_shift_out m n) by lia.
    split; [intros; lia |].
    intros _ _. subst n. revert Hge.
    unfold fexp, emin, Double.prec, Double.emax. lia.
Qed.

Lemma round_nearest_even_cases m l :
  round_nearest_even m l = m \/ round_nearest_even m l = (m + 1)%Z.
Proof.
  destruct l as [| []]; cbn; auto. destruct (Z.even m); auto.
Qed.

(** Rounding returns a double. *)
Lemma binary_round_aux_valid s m e l :
  (0 < m)%Z -> (e <= fexp Double.prec Double.emax (Zdigits2 m + e))%Z ->
  valid_binary Double.prec Double.emax
    (binary_round_aux Double.prec Double.emax s m e l) = true.
Proof.
  intros Hm Hn. unfold binary_round_aux.
  destruct (shr_fexp_canonical m e l ltac:(lia) Hn) as (H1 & Hc1 & Hz1).
  destruct (shr_fexp Double.prec Double.emax m e l) as [mrs1 e1].
  cbn [fst snd] in H1, Hc1, Hz1.
  set (m2 := round_nearest_even (shr_m mrs1) (loc_of_shr_record mrs1)).
  assert (Hm2 : (shr_m mrs1 <= m2 <= shr_m mrs1 + 1)%Z).
  { subst m2.
    destruct (round_nearest_even_cases (shr_m mrs1) (loc_of_shr_record mrs1))
      as [-> | ->]; lia. }
  assert (Hn2 : (e1 <= fexp Double.prec Double.emax (Zdigits2 m2 + e1))%Z).
  { pose proof (Zdigits2_mono (shr_m mrs1) m2 ltac:(lia)) as Hmono.
    pose proof (Zdigits2_nonneg m2) as Hnn.
    destruct (Z.eq_dec (shr_m mrs1) 0) as [Hz | Hnz].
    - rewrite (Hz1 Hm Hz). unfold fexp. lia.
    - rewrite <- (Hc1 ltac:(lia)) at 1. unfold fexp. lia. }
  destruct (shr_fexp_canonical m2 e1 loc_Exact ltac:(lia) Hn2) as (H3 & Hc3 & _).
  destruct (shr_fexp Double.prec Double.emax m2 e1 loc_Exact) as [mrs3 e3].
  cbn [fst snd] in H3, Hc3.
  destruct (shr_m mrs3) as [| p | p]; [reflexivity | | reflexivity].
  destruct (e3 <=? Double.emax - Double.prec)%Z eqn:Hle; [| reflexivity].
  cbn [valid_binary]. unfold bounded, canonical_mantissa.
  rewrite Hle, andb_true_r. apply Z.eqb_eq.
  apply (Hc3 ltac:(lia)).
Qed.

(** Adding [d] low bits adds [d] digits. *)
Lemma digits2_pos_iter_xO (m d : positive) :
  Zpos (digits2_pos (Pos.iter xO m d)) = (Zpos (digits2_pos m) + Zpos d)%Z.
Proof.
  change (Zpos (digits2_pos (Pos.iter xO m d)))
    with (Zdigits2 (Zpos (Pos.iter xO m d))).
  apply Zdigits2_unique; [| lia].
  rewrite iter_xO_value.
  pose proof (digits2_pos_bounds m) as [Hlo Hhi].
  assert (Hp : (0 < 2 ^ Zpos d)%Z) by (apply Z.pow_pos_nonneg; lia).
  replace (Zpos (digits2_pos m) + Zpos d - 1)%Z
    with ((Zpos (digits2_pos m) - 1) + Zpos d)%Z by lia.
  rewrite !Z.pow_add_r by lia. nia.
Qed.

Lemma binary_round_valid s m e :
  valid_binary Double.prec Double.emax
    (binary_round Double.prec Double.emax s m e) = true.
Proof.
  unfold binary_round, shl_align.
  destruct (fexp Double.prec Double.emax (Zpos (digits2_pos m) + e) - e)%Z
    as [| d | d] eqn:Hd.
  - apply binary_round_aux_valid; [lia |]. cbn [Zdigits2]. lia.
  - apply binary_round_aux_valid; [lia |]. cbn [Zdigits2]. lia.
  - apply binary_round_aux_valid; [lia |]. cbn [Zdigits2].
    rewrite digits2_pos_iter_xO.
    set (f0 := fexp Double.prec Double.emax (Zpos (digits2_pos m) + e)) in *.
    replace (Zpos (digits2_pos m) + Zpos d + f0)%Z
      with (Zpos (digits2_pos m) + e)%Z by lia.
    fold f0. lia.
Qed.

Lemma binary_normalize_valid m e szero :
  valid_binary Double.prec Double.emax
    (binary_normalize Double.prec Double.emax m e szero) = true.
Proof.
  destruct m; [reflexivity | apply binary_round_valid ..].
Qed.

(** The sum and the difference of two doubles are doubles. *)
Lemma add_valid x y :
  Double.valid x = true -> Double.valid y = true ->
  Double.valid (Double.add x y) = true.
Proof.
  unfold Double.valid, Double.add. intros Vx Vy.
  destruct x as [sx | sx | | sx mx ex], y as [sy | sy | | sy my ey];
    cbn [SFadd]; try reflexivity; try assumption;
    try (destruct sx, sy; reflexivity).
  apply binary_normalize_valid.
Qed.

Lemma sub_valid x y :
  Double.valid x = true -> Double.valid y = true ->
  Double.valid (Double.sub x y) = true.
Proof.
  unfold Double.valid, Double.sub. intros Vx Vy.
  destruct x as [sx | sx | | sx mx ex], y as [sy | sy | | sy my ey];
    cbn [SFsub]; try reflexivity; try assumption;
    try (destruct sx, sy; reflexivity).
  apply binary_normalize_valid.
Qed.

(** ** The sign of a sum and of a difference *)

(** [0 <= x] and [0 <= y] give [0 <= x + y]. *)
Lemma add_nonneg (x y : Double.number) :
  Double.nonneg x -> Double.nonneg y -> Double.nonneg (Double.add x y).
Proof.
  unfold Double.nonneg, Double.leb, Double.zero, Double.add.
  destruct x as [sx | sx | | sx mx ex], y as [sy | sy | | sy my ey];
    try discriminate;
    try (destruct sx; try discriminate);
    try (destruct sy; try discriminate);
    try reflexivity.
  intros _ _. cbn [SFadd cond_Zopp].
  apply binary_normalize_nonneg. lia.
Qed.

(** For doubles [x] and [y], [y] finite and [x] not [NaN]: when [x < y]
    is false, [0 <= x - y]. *)
Lemma sub_nonneg (x y : Double.number) :
  Double.valid x = true -> Double.valid y = true ->
  Double.is_nan x = false -> Double.is_finite y = true ->
  Double.ltb x y = false ->
  Double.nonneg (Double.sub x y).
Proof.
  unfold Double.nonneg, Double.leb, Double.ltb, Double.zero, Double.sub,
    Double.valid.
  destruct x as [sx | sx | | sx mx ex], y as [sy | sy | | sy my ey];
    try discriminate; intros Vx Vy _ _.
  - destruct sx, sy; reflexivity.
  - destruct sy; [reflexivity | discriminate].
  - destruct sx; [discriminate | reflexivity].
  - destruct sx; [discriminate | reflexivity].
  - destruct sx; [discriminate | reflexivity].
  - cbn [valid_binary] in Vx, Vy. intros Hlt.
    cbn [SFsub]. apply binary_normalize_nonneg.
    assert (Hx : Zpos (fst (shl_align mx ex (Z.min ex ey)))
                 = (Zpos mx * 2 ^ (ex - Z.min ex ey))%Z)
      by (apply shl_align_value; lia).
    assert (Hy : Zpos (fst (shl_align my ey (Z.min ex ey)))
                 = (Zpos my * 2 ^ (ey - Z.min ex ey))%Z)
      by (apply shl_align_value; lia).
    rewrite Hx, Hy. clear Hx Hy.
    unfold SFltb, SFcompare in Hlt.
    destruct sx, sy; cbn [cond_Zopp]; try discriminate.
    + (* both negative *)
      destruct (Z.compare_spec ex ey) as [He | He | He]; try discriminate.
      * subst ey. rewrite Z.min_id, Z.sub_diag. cbn [Z.pow].
        change (Pos.compare_cont Eq mx my) with (Pos.compare mx my) in Hlt.
        destruct (Pos.compare_spec mx my); try discriminate; lia.
      * pose proof (bounded_exponent_gt my ey mx ex Vy Vx He).
        rewrite Z.min_l, Z.sub_diag by lia. cbn [Z.pow]. lia.
    + (* x is not negative, y is negative *)
      assert (0 < 2 ^ (ex - Z.min ex ey))%Z by (apply Z.pow_pos_nonneg; lia).
      assert (0 < 2 ^ (ey - Z.min ex ey))%Z by (apply Z.pow_pos_nonneg; lia).
      nia.
    + (* neither is negative *)
      destruct (Z.compare_spec ex ey) as [He | He | He]; try discriminate.
      * subst ey. rewrite Z.min_id, Z.sub_diag. cbn [Z.pow].
        change (Pos.compare_cont Eq mx my) with (Pos.compare mx my) in Hlt.
        destruct (Pos.compare_spec mx my); try discriminate; lia.
      * pose proof (bounded_exponent_gt mx ex my ey Vx Vy He).
        rewrite Z.min_r, Z.sub_diag by lia. cbn [Z.pow]. lia.
Qed.

End Binary64.

(** ** The stock operations on doubles *)

Lemma double_addStock_eq r productId quantity userId reason e w :
  Double.addStock r productId quantity userId reason e w =
  match findIndex (fun p => Double.Product.id p =? productId)%string
                  (Double.products r) with
  | Some index =>
    match Double.products r !! index with
    | Some p =>
      (true, Double.stock_written r w index
               (Double.Product.with_stock p
                  (Double.add (Double.Product.stockLevel p) quantity)
                  (date_now e 0))
               (Double.createStockActivity ADD productId quantity userId reason e))
    | None => (false, w)
    end
  | None => (false, w)
  end.
Proof.
  unfold Double.addStock. repeat case_match; reflexivity.
Qed.

Lemma double_removeStock_eq r productId quantity userId reason e w :
  Double.removeStock r productId quantity userId reason e w =
  match findIndex (fun p => Double.Product.id p =? productId)%string
                  (Double.products r) with
  | Some index =>
    match Double.products r !! index with
    | Some p =>
      if Double.ltb (Double.Product.stockLevel p) quantity then (false, w)
      else
        (true, Double.stock_written r w index
                 (Double.Product.with_stock p
                    (Double.sub (Double.Product.stockLevel p) quantity)
                    (date_now e 0))
                 (Double.createStockActivity REMOVE productId quantity userId
                    reason e))
    | None => (false, w)
    end
  | None => (false, w)
  end.
Proof.
  unfold Double.removeStock. repeat case_match; reflexivity.
Qed.

Lemma double_adjustStock_eq r productId newQuantity userId reason e w :
  Double.adjustStock r productId newQuantity userId reason e w =
  match findIndex (fun p => Double.Product.id p =? productId)%string
                  (Double.products r) with
  | Some index =>
    match Double.products r !! index with
    | Some p =>
      (true, Double.stock_written r w index
               (Double.Product.with_stock p newQuantity (date_now e 0))
               (Double.createStockActivity ADJUST productId
                  (Double.Math_abs
                     (Double.sub newQuantity (Double.Product.stockLevel p)))
                  userId reason e))
    | None => (false, w)
    end
  | None => (false, w)
  end.
Proof.
  unfold Double.adjustStock. repeat case_match; reflexivity.
Qed.

Lemma double_stock_written_nonneg r w index p' a :
  Double.stock_nonneg r -> Double.nonneg (Double.Product.stockLevel p') ->
  Double.stock_nonneg (Double.stock_written r w index p' a).
Proof.
  unfold Double.stock_nonneg, Double.stock_written. simpl. intros Hr Hp.
  apply Forall_insert; assumption.
Qed.

Lemma double_stock_written_valid r w index p' a :
  Double.stock_valid r -> Double.valid (Double.Product.stockLevel p') = true ->
  Double.stock_valid (Double.stock_written r w index p' a).
Proof.
  unfold Double.stock_valid, Double.stock_written. simpl. intros Hr Hp.
  apply Forall_insert; assumption.
Qed.

(** A double that is not negative is not [NaN]. *)
Lemma double_nonneg_not_nan x : Double.nonneg x -> Double.is_nan x = false.
Proof.
  destruct x; [reflexivity | reflexivity | discriminate | reflexivity].
Qed.

Lemma double_removeStock_nonneg r productId quantity userId reason e w :
  Double.valid quantity = true -> Double.is_finite quantity = true ->
  Double.stock_valid r -> Double.stock_nonneg r -> Double.stock_nonneg w ->
  Double.stock_nonneg
    (snd (Double.removeStock r productId quantity userId reason e w)).
Proof.
  intros Vq Fq Vr Hr Hw. rewrite double_removeStock_eq.
  destruct (findIndex _ (Double.products r)) as [index |]; [| exact Hw].
  destruct (Double.products r !! index) as [p |] eqn:Hp; [| exact Hw].
  destruct (Double.ltb (Double.Product.stockLevel p) quantity) eqn:Hlt;
    [exact Hw |].
  simpl. apply double_stock_written_nonneg; [exact Hr |]. simpl.
  unfold Double.stock_valid in Vr. rewrite Forall_lookup in Vr.
  unfold Double.stock_nonneg in Hr. rewrite Forall_lookup in Hr.
  apply sub_nonneg;
    [exact (Vr _ _ Hp) | exact Vq
     | apply double_nonneg_not_nan; exact (Hr _ _ Hp) | exact Fq | exact Hlt].
Qed.

Lemma double_addStock_nonneg r productId quantity userId reason e w :
  Double.nonneg quantity -> Double.stock_nonneg r -> Double.stock_nonneg w ->
  Double.stock_nonneg
    (snd (Double.addStock r productId quantity userId reason e w)).
Proof.
  intros Hq Hr Hw. rewrite double_addStock_eq.
  destruct (findIndex _ (Double.products r)) as [index |]; [| exact Hw].
  destruct (Double.products r !! index) as [p |] eqn:Hp; [| exact Hw].
  simpl. apply double_stock_written_nonneg; [exact Hr |]. simpl.
  apply add_nonneg; [| exact Hq].
  unfold Double.stock_nonneg in Hr. rewrite Forall_lookup in Hr.
  exact (Hr _ _ Hp).
Qed.

Lemma double_adjustStock_nonneg r productId newQuantity userId reason e w :
  Double.nonneg newQuantity -> Double.stock_nonneg r -> Double.stock_nonneg w ->
  Double.stock_nonneg
    (snd (Double.adjustStock r productId newQuantity userId reason e w)).
Proof.
  intros Hq Hr Hw. rewrite double_adjustStock_eq.
  destruct (findIndex _ (Double.products r)) as [index |]; [| exact Hw].
  destruct (Double.products r !! index) as [p |]; [| exact Hw].
  simpl. apply double_stock_written_nonneg; assumption.
Qed.

Lemma double_removeStock_valid r productId quantity userId reason e w :
  Double.valid quantity = true ->
  Double.stock_valid r -> Double.stock_valid w ->
  Double.stock_valid
    (snd (Double.removeStock r productId quantity userId reason e w)).
Proof.
  intros Vq Vr Vw. rewrite double_removeStock_eq.
  destruct (findIndex _ (Double.products r)) as [index |]; [| exact Vw].
  destruct (Double.products r !! index) as [p |] eqn:Hp; [| exact Vw].
  destruct (Double.ltb (Double.Product.stockLevel p) quantity); [exact Vw |].
  simpl. apply double_stock_written_valid; [exact Vr |]. simpl.
  unfold Double.stock_valid in Vr. rewrite Forall_lookup in Vr.
  apply sub_valid; [exact (Vr _ _ Hp) | exact Vq].
Qed.

Lemma double_addStock_valid r productId quantity userId reason e w :
  Double.valid quantity = true ->
  Double.stock_valid r -> Double.stock_valid w ->
  Double.stock_valid
    (snd (Double.addStock r productId quantity userId reason e w)).
Proof.
  intros Vq Vr Vw. rewrite double_addStock_eq.
  destruct (findIndex _ (Double.products r)) as [index |]; [| exact Vw].
  destruct (Double.products r !! index) as [p |] eqn:Hp; [| exact Vw].
  simpl. apply double_stock_written_valid; [exact Vr |]. simpl.
  unfold Double.stock_valid in Vr. rewrite Forall_lookup in Vr.
  apply add_valid; [exact (Vr _ _ Hp) | exact Vq].
Qed.

Lemma double_adjustStock_valid r productId newQuantity userId reason e w :
  Double.valid newQuantity = true ->
  Double.stock_valid r -> Double.stock_valid w ->
  Double.stock_valid
    (snd (Double.adjustStock r productId newQuantity userId reason e w)).
Proof.
  intros Vq Vr Vw. rewrite double_adjustStock_eq.
  destruct (findIndex _ (Double.products r)) as [index |]; [| exact Vw].
  destruct (Double.products r !! index) as [p |]; [| exact Vw].
  simpl. apply double_stock_written_valid; assumption.
Qed.

(** ** [createSale] on doubles *)

Lemma double_updateInventory_cons r soldBy reason e k item rest w :
  Double.updateInventory r soldBy reason e k (item :: rest) w =
  let res :=
    Double.removeStock r (Double.SaleItem.productId item)
      (Double.SaleItem.quantity item) soldBy (Some reason) (env_shift k e) w in
  if fst res then Double.updateInventory r soldBy reason e (S k) rest (snd res)
  else (false, snd res).
Proof.
  simpl. unfold Double.bind.
  destruct (Double.removeStock r _ _ soldBy (Some reason) (env_shift k e) w)
    as [[|] w']; reflexivity.
Qed.

(** The items built from the data carry the quantities of the data. *)
Lemma double_mapSaleItems_quantities r e itemsData :
  forall k saleItems,
    Double.mapSaleItems r e k itemsData = Some saleItems ->
    map Double.SaleItem.quantity saleItems
    = map Double.SaleItemData.quantity itemsData.
Proof.
  induction itemsData as [| d rest IH]; intros k saleItems; simpl.
  - intros [= <-]. reflexivity.
  - unfold Double.mkSaleItem.
    destruct (List.find _ (Double.products r)) as [product |]; [| discriminate].
    destruct (Double.mapSaleItems r e (S k) rest) as [items |] eqn:Hrest;
      [| discriminate].
    intros [= <-]. simpl. f_equal. exact (IH _ _ Hrest).
Qed.

(** Loop invariant: what every [removeStock] of the render preserves,
    for the quantities of the items, holds after the loop, whether it
    ends or throws. *)
Lemma double_updateInventory_inv (P : Double.World -> Prop)
    (G : Double.number -> Prop) r soldBy reason e saleItems :
  Forall G (map Double.SaleItem.quantity saleItems) ->
  (forall w productId quantity e',
      G quantity -> P w ->
      P (snd (Double.removeStock r productId quantity soldBy (Some reason) e' w))) ->
  forall k w,
    P w -> P (snd (Double.updateInventory r soldBy reason e k saleItems w)).
Proof.
  intros Hq Hstep.
  induction saleItems as [| item rest IH]; intros k w Hw; [exact Hw |].
  rewrite double_updateInventory_cons. cbv zeta.
  simpl in Hq. apply Forall_cons in Hq. destruct Hq as [Hitem Hrest].
  specialize (Hstep w (Double.SaleItem.productId item)
                (Double.SaleItem.quantity item) (env_shift k e) Hitem Hw).
  destruct (Double.removeStock r _ _ soldBy (Some reason) (env_shift k e) w)
    as [[|] w']; simpl in *; [apply IH; assumption | exact Hstep].
Qed.

Lemma double_createSale_eq r itemsData amountPaid soldBy customer notes e w :
  Double.createSale r itemsData amountPaid soldBy customer notes e w =
  match Double.mapSaleItems r e 0 itemsData with
  | None => (None, w)
  | Some saleItems =>
    let newSale :=
      Double.buildSale saleItems amountPaid soldBy customer notes
        (fresh_id e (length itemsData)) (date_now e 0) (date_now e 1) in
    let res :=
      Double.updateInventory r soldBy
        (String.append "Sale: " (Double.Sale.id newSale)) e
        (S (length itemsData)) saleItems w in
    if fst res
    then (Some newSale,
          Double.mkWorld (Double.products (snd res))
            (Double.stockActivities (snd res))
            (Double.sales r ++ [newSale]) (Double.creditPayments (snd res)))
    else (None, snd res)
  end.
Proof.
  unfold Double.createSale.
  destruct (Double.mapSaleItems r e 0 itemsData) as [saleItems |];
    [| reflexivity].
  cbv zeta. unfold Double.bind.
  destruct (Double.updateInventory r soldBy _ e (S (length itemsData))
              saleItems w) as [[|] w']; reflexivity.
Qed.

Lemma double_createSale_stock r itemsData amountPaid soldBy customer notes e w :
  Double.quantities_finite itemsData ->
  Double.stock_valid r -> Double.stock_nonneg r ->
  Double.stock_valid w -> Double.stock_nonneg w ->
  let w' :=
    snd (Double.createSale r itemsData amountPaid soldBy customer notes e w) in
  Double.stock_valid w' /\ Double.stock_nonneg w'.
Proof.
  intros Hq Vr Hr Vw Hw. cbv zeta. rewrite double_createSale_eq.
  destruct (Double.mapSaleItems r e 0 itemsData) as [saleItems |] eqn:Hmap;
    [| split; assumption].
  cbv zeta.
  assert (Hq' : Forall (fun q => Double.valid q = true /\
                                 Double.is_finite q = true)
                  (map Double.SaleItem.quantity saleItems)).
  { rewrite (double_mapSaleItems_quantities _ _ _ _ _ Hmap).
    apply Forall_fmap. exact Hq. }
  pose proof (double_updateInventory_inv
    (fun w => Double.stock_valid w /\ Double.stock_nonneg w)
    (fun q => Double.valid q = true /\ Double.is_finite q = true)
    r soldBy
    (String.append "Sale: "
       (Double.Sale.id
          (Double.buildSale saleItems amountPaid soldBy customer notes
             (fresh_id e (length itemsData)) (date_now e 0) (date_now e 1))))
    e saleItems Hq') as H.
  specialize (H ltac:(intros w0 productId quantity e' [Vq Fq] [Vw0 Hw0]; split;
                      [apply double_removeStock_valid
                      | apply double_removeStock_nonneg]; assumption)
                (S (length itemsData)) w (conj Vw Hw)).
  destruct (Double.updateInventory r soldBy _ e (S (length itemsData))
              saleItems w) as [[|] w']; simpl in *; exact H.
Qed.




Lemma double_demo_stock_nonneg : Double.stock_nonneg Double.demo_world.
Proof.
  unfold Double.stock_nonneg. simpl. repeat constructor.
Qed.

Lemma double_demo_stock_valid : Double.stock_valid Double.demo_world.
Proof.
  unfold Double.stock_valid. simpl. repeat constructor.
Qed.

(** * Stock levels, on doubles *)

(** C1, as the specification states it, fails.  On the demo products,
    [addStock] with the quantity -30 and [adjustStock] with the new
    quantity -1 leave a negative stock level: neither has a check.
    [removeStock] with the quantity [NaN] returns [true] and leaves the
    stock level [NaN], which is not [>= 0]: its check [stockLevel <
    quantity] is false for [NaN]. *)
Lemma double_stock_negative_or_NaN :
  Double.stock_nonneg Double.demo_world /\
  ~ Double.stock_nonneg
      (snd (Double.call
              (fun r => Double.addStock r "1" (Double.of_Z (-30)) "1" None
                          sample_env) Double.demo_world)) /\
  ~ Double.stock_nonneg
      (snd (Double.call
              (fun r => Double.adjustStock r "1" (Double.of_Z (-1)) "1" None
                          sample_env) Double.demo_world)) /\
  fst (Double.call
         (fun r => Double.removeStock r "1" Double.NaN "1" None sample_env)
         Double.demo_world) = true /\
  ~ Double.stock_nonneg
      (snd (Double.call
              (fun r => Double.removeStock r "1" Double.NaN "1" None
                          sample_env) Double.demo_world)).
Proof.
  split; [exact double_demo_stock_nonneg |].
  split; [| split; [| split; [reflexivity |]]];
    intros H; unfold Double.stock_nonneg in H; simpl in H;
    apply Forall_cons in H; destruct H as [H _];
    vm_compute in H; discriminate H.
Qed.

(** C1 (amended).  From a state in which every stock level is a double
    that is not negative, each of the following leaves every stock level
    a double that is not negative: [removeStock] with a quantity that is
    a double and neither [NaN] nor an infinity, [createSale] with items
    whose quantities are such, [addStock] with a quantity that is a
    double and not negative, and [adjustStock] with a new quantity that
    is a double and not negative.  [removeStock] returns [false] and
    changes nothing when the quantity exceeds the stock level of the
    product. *)
Theorem double_stock_never_negative (w : Double.World) (e : Env) :
  Double.stock_valid w -> Double.stock_nonneg w ->
  (forall productId quantity userId reason,
      Double.valid quantity = true -> Double.is_finite quantity = true ->
      let w' :=
        snd (Double.call
               (fun r => Double.removeStock r productId quantity userId
                           reason e) w) in
      Double.stock_valid w' /\ Double.stock_nonneg w')
  /\
  (forall itemsData amountPaid soldBy customer notes,
      Double.quantities_finite itemsData ->
      let w' :=
        snd (Double.call
               (fun r => Double.createSale r itemsData amountPaid soldBy
                           customer notes e) w) in
      Double.stock_valid w' /\ Double.stock_nonneg w')
  /\
  (forall productId quantity userId reason,
      Double.valid quantity = true -> Double.nonneg quantity ->
      let w' :=
        snd (Double.call
               (fun r => Double.addStock r productId quantity userId reason e)
               w) in
      Double.stock_valid w' /\ Double.stock_nonneg w')
  /\
  (forall productId newQuantity userId reason,
      Double.valid newQuantity = true -> Double.nonneg newQuantity ->
      let w' :=
        snd (Double.call
               (fun r => Double.adjustStock r productId newQuantity userId
                           reason e) w) in
      Double.stock_valid w' /\ Double.stock_nonneg w')
  /\
  (forall productId quantity userId reason index p,
      findIndex (fun p => Double.Product.id p =? productId)%string
                (Double.products w) = Some index ->
      Double.products w !! index = Some p ->
      Double.ltb (Double.Product.stockLevel p) quantity = true ->
      Double.call
        (fun r => Double.removeStock r productId quantity userId reason e) w
      = (false, w)).
Proof.
  intros Vw Hw. unfold Double.call.
  split; [| split; [| split; [| split]]].
  - intros. cbv zeta.
    split; [apply double_removeStock_valid | apply double_removeStock_nonneg];
      assumption.
  - intros. apply double_createSale_stock; assumption.
  - intros. cbv zeta.
    split; [apply double_addStock_valid | apply double_addStock_nonneg];
      assumption.
  - intros. cbv zeta.
    split; [apply double_adjustStock_valid | apply double_adjustStock_nonneg];
      assumption.
  - intros productId quantity userId reason index p Hi Hp Hlt.
    rewrite double_removeStock_eq, Hi, Hp, Hlt. reflexivity.
Qed.

Lemma double_stock_never_negative_witness :
  Double.stock_nonneg
    (snd (Double.call
            (fun r => Double.removeStock r "3" (Double.of_Z 8) "1" None
                        sample_env) Double.demo_world)) /\
  Double.stock_nonneg
    (snd (Double.sale_one_shirt (Double.of_Z 1500) Double.zero)) /\
  Double.stock_nonneg
    (snd (Double.call
            (fun r => Double.addStock r "1" (Double.of_ratio 5 10) "1" None
                        sample_env) Double.demo_world)) /\
  Double.call
    (fun r => Double.removeStock r "3" (Double.of_Z 9) "1" None sample_env)
    Double.demo_world
  = (false, Double.demo_world).
Proof.
  pose proof (double_stock_never_negative Double.demo_world sample_env
                double_demo_stock_valid double_demo_stock_nonneg)
    as (Hrem & Hsale & Hadd & _ & Hfail).
  split; [apply Hrem; reflexivity |].
  split; [apply Hsale; repeat constructor |].
  split; [apply Hadd; reflexivity |].
  apply (Hfail "3" (Double.of_Z 9) "1" None 2%nat
           (Double.Product.mk "3" "Sneakers" (Some "Canvas sneakers, size 42")
              (Some "SN-001") (Double.of_Z 4500) (Double.of_Z 3000)
              (Double.of_Z 8) (Double.of_Z 10) (Double.of_Z 5) "Footwear" None
              0%Z 0%Z));
    reflexivity.
Defined.

(** * Sales and credit payments, on doubles *)




(** ** Payment status *)




(** * A sale of one item, on doubles *)

(** X12.  A sale of a single item that goes through writes the double
    [stockLevel - quantity] as the stock of the first product with that
    id, for which the check [stockLevel < quantity] was false, and leaves
    every other product as it was; the log gains one REMOVE entry for
    that product and quantity, made by the seller with the sale id as the
    reason, and the sale is appended to the sales. *)
Theorem double_createSale_single_item w d amountPaid soldBy customer notes e
    sale w' :
  Double.call
    (fun r => Double.createSale r [d] amountPaid soldBy customer notes e) w
    = (Some sale, w') ->
  exists index p u a,
    findIndex (fun p => Double.Product.id p =? Double.SaleItemData.productId d)%string
      (Double.products w) = Some index /\
    Double.products w !! index = Some p /\
    Double.ltb (Double.Product.stockLevel p) (Double.SaleItemData.quantity d)
      = false /\
    Double.products w'
      = <[index := Double.Product.with_stock p
                     (Double.sub (Double.Product.stockLevel p)
                                 (Double.SaleItemData.quantity d)) u]>
          (Double.products w) /\
    Double.stockActivities w' = Double.stockActivities w ++ [a] /\
    Double.StockActivity.type a = REMOVE /\
    Double.StockActivity.productId a = Double.SaleItemData.productId d /\
    Double.StockActivity.quantity a = Double.SaleItemData.quantity d /\
    Double.StockActivity.performedBy a = soldBy /\
    Double.StockActivity.reason a
      = Some (String.append "Sale: " (Double.Sale.id sale)) /\
    Double.sales w' = Double.sales w ++ [sale].
Proof.
  unfold Double.call. rewrite double_createSale_eq.
  cbn [Double.mapSaleItems]. unfold Double.mkSaleItem.
  destruct (List.find _ (Double.products w)) as [product |]; [| discriminate].
  cbv zeta. rewrite double_updateInventory_cons. cbv zeta.
  rewrite double_removeStock_eq.
  cbn [Double.SaleItem.productId Double.SaleItem.quantity].
  destruct (findIndex _ (Double.products w)) as [index |] eqn:Hi;
    [| discriminate].
  destruct (Double.products w !! index) as [p |] eqn:Hp; [| discriminate].
  destruct (Double.ltb (Double.Product.stockLevel p)
                       (Double.SaleItemData.quantity d)) eqn:Hlt;
    [discriminate |].
  cbn [fst snd Double.updateInventory Double.ret].
  intros [= <- <-].
  cbn [Double.products Double.stockActivities Double.sales
       Double.stock_written].
  eexists index, p, _, _.
  split; [reflexivity |]. split; [exact Hp |]. split; [exact Hlt |].
  split; [reflexivity |]. split; [reflexivity |].
  repeat split; reflexivity.
Qed.

Lemma double_createSale_single_item_witness :
  exists sale w',
    Double.sale_one_shirt (Double.of_Z 1500) (Double.of_Z 500)
      = (Some sale, w') /\
    Double.Product.stockLevel <$> Double.products w'
      = [Double.of_Z 24; Double.of_Z 15; Double.of_Z 8] /\
    length (Double.stockActivities w') = 1%nat.
Proof.
  destruct (Double.sale_one_shirt (Double.of_Z 1500) (Double.of_Z 500))
    as [[sale |] w'] eqn:E; [| vm_compute in E; discriminate E].
  exists sale, w'. split; [reflexivity |].
  destruct (double_createSale_single_item Double.demo_world _ _ _ _ _ _ _ _ E)
    as (index & p & u & a & _ & _ & _ & _ & Hlog & _).
  split; [injection E as _ <-; vm_compute; reflexivity |].
  rewrite Hlog. reflexivity.
Defined.

(** * Paying a credit sale down, on doubles *)





